(** * parser_sec: a shallow embedding of the SEC filing ingestion pipeline

    The development follows the four Python modules of the repository:
    - [structs.py]: the two type aliases;
    - [store.py]:   the SQLite metadata store behind two module globals;
    - [main.py]:    retrieval, combination, chunking, the pipeline and [main];
    - [run.py]:     the command line (only its [choices] are used here).

    Python code that raises is modelled in a state-and-exception monad over
    the process state (module globals, database file, log, standard output).
    External collaborators (the EDGAR download client, the directory loader,
    the XBRL parser, the vector index) are variables of a section: the
    theorems hold for whatever they answer. *)

From Stdlib Require Import String Ascii List ZArith Lia Bool Arith.
From Stdlib Require Import DecimalString Sorted.
Import ListNotations.
Open Scope list_scope.
Open Scope string_scope.

Set Warnings "-register-all".

(* ===================================================================== *)
(** ** Strings as Python uses them *)
(* ===================================================================== *)

Module PyStr.

(** [sep.join(parts)] *)
Fixpoint join (sep : string) (parts : list string) : string :=
  match parts with
  | [] => ""
  | [p] => p
  | p :: rest => p ++ sep ++ join sep rest
  end.

(** [c.upper()] on one ASCII letter; other characters are left alone. *)
Definition upper_ascii (c : ascii) : ascii :=
  let n := nat_of_ascii c in
  if (97 <=? n)%nat && (n <=? 122)%nat then ascii_of_nat (n - 32) else c.

(** [s.upper()] *)
Fixpoint upper (s : string) : string :=
  match s with
  | EmptyString => EmptyString
  | String c s' => String (upper_ascii c) (upper s')
  end.

Definition lower_ascii (c : ascii) : ascii :=
  let n := nat_of_ascii c in
  if (65 <=? n)%nat && (n <=? 90)%nat then ascii_of_nat (n + 32) else c.

(** [s.lower()] *)
Fixpoint lower (s : string) : string :=
  match s with
  | EmptyString => EmptyString
  | String c s' => String (lower_ascii c) (lower s')
  end.

(** [t in s] *)
Fixpoint contains (s t : string) : bool :=
  String.prefix t s ||
  match s with
  | EmptyString => false
  | String _ s' => contains s' t
  end.

(** [s[-n:]] for [n > 0] *)
Definition last_chars (n : nat) (s : string) : string :=
  substring (String.length s - n) n s.

End PyStr.

(* ===================================================================== *)
(** ** structs.py *)
(* ===================================================================== *)

(** [TickerType: TypeAlias = str] *)
Definition TickerType := string.

(** [DocType: TypeAlias = Literal['10-K', '10-Q', '8-K']]: a [str] at run
    time; the three literals are what the command line lets through. *)
Definition DocType := string.

Definition DocType_literals : list DocType := ["10-K"; "10-Q"; "8-K"].

(* ===================================================================== *)
(** ** Exceptions, results and the process monad *)
(* ===================================================================== *)

(** The exception classes the program raises, catches or can be handed by
    a collaborator.  [KeyboardInterrupt] and [SystemExit] derive from
    [BaseException] only; every other class derives from [Exception]. *)
Inductive ExcClass : Type :=
| KeyboardInterrupt
| SystemExit (code : Z)
| Exception_
| XBRLParserException
| IndexError
| AttributeError
| ProgrammingError      (* sqlite3: operation on a closed database *)
| OperationalError      (* sqlite3: no such table *)
| OtherException (name : string).

(** An exception object: class, [str(e)], and [__cause__] ([raise .. from]). *)
Inductive exn : Type :=
| Exc (cls : ExcClass) (msg : string) (cause : option exn).

Definition exn_class (e : exn) : ExcClass := let 'Exc c _ _ := e in c.
Definition exn_msg (e : exn) : string := let 'Exc _ m _ := e in m.
Definition exn_cause (e : exn) : option exn := let 'Exc _ _ c := e in c.

(** [isinstance(e, Exception)] *)
Definition is_Exception (e : exn) : bool :=
  match exn_class e with
  | KeyboardInterrupt | SystemExit _ => false
  | _ => true
  end.

Definition is_KeyboardInterrupt (e : exn) : bool :=
  match exn_class e with KeyboardInterrupt => true | _ => false end.

Definition is_XBRLParserException (e : exn) : bool :=
  match exn_class e with XBRLParserException => true | _ => false end.

Definition is_IndexError (e : exn) : bool :=
  match exn_class e with IndexError => true | _ => false end.

Inductive Result (A : Type) : Type :=
| Ok (a : A)
| Raise (e : exn).
Arguments Ok {A} a.
Arguments Raise {A} e.

(** Logging levels of the [logging] module. *)
Inductive Level : Type := DEBUG | INFO | WARNING | ERROR | CRITICAL.

(** One emitted log record; [exc_info] is what [log.exception] attaches. *)
Record LogRecord : Type := mkLogRecord {
  logger : string;
  level : Level;
  message : string;
  exc_info : option exn
}.

(** A row of [DownloadedDocs] as the [CREATE TABLE] statement lays it out. *)
Record Row : Type := mkRow {
  row_id : Z;
  row_ticker : string;
  row_doc_type : string;
  row_dir_path : string;
  row_updated_at : string
}.

(** The state of the process.
    - [store_connection], [cursor]: the globals [_store_connection] and
      [_cursor] of store.py; a connection is named by a number, and a cursor
      remembers the connection it was made from.
    - [live]: the connections that have not been closed.
    - [table]: the table [DownloadedDocs] in the file [DB_PATH]; [None]
      while it has not been created.  Rows are kept in rowid order.
    - [clock]: what [CURRENT_TIMESTAMP] answers.
    - [log], [stdout]: records emitted by [logging] and lines [print]ed. *)
Record World : Type := mkWorld {
  store_connection : option nat;
  cursor : option nat;
  live : list nat;
  next_conn : nat;
  table : option (list Row);
  clock : string;
  log : list LogRecord;
  stdout : list string
}.

Definition M (A : Type) : Type := World -> Result A * World.

Definition ret {A} (a : A) : M A := fun w => (Ok a, w).

Definition raise {A} (e : exn) : M A := fun w => (Raise e, w).

Definition bind {A B} (m : M A) (k : A -> M B) : M B :=
  fun w =>
    match m w with
    | (Ok a, w') => k a w'
    | (Raise e, w') => (Raise e, w')
    end.

Declare Scope py_scope.
Delimit Scope py_scope with py.
Notation "x <- m ;; k" := (bind m (fun x => k))
  (at level 100, m at next level, right associativity) : py_scope.
Notation "m ;;; k" := (bind m (fun _ => k))
  (at level 100, right associativity) : py_scope.
Open Scope py_scope.

(** A call that does not touch the process state. *)
Definition lift {A} (r : Result A) : M A := fun w => (r, w).

(** [try: body  except <classes>: handler]: the first handler whose test
    accepts the exception runs; without one the exception goes on. *)
Fixpoint dispatch {A} (handlers : list ((exn -> bool) * (exn -> M A)))
  (e : exn) : M A :=
  match handlers with
  | [] => raise e
  | (test, handler) :: rest =>
      if test e then handler e else dispatch rest e
  end.

Definition try_except {A} (body : M A)
  (handlers : list ((exn -> bool) * (exn -> M A))) : M A :=
  fun w =>
    match body w with
    | (Ok a, w') => (Ok a, w')
    | (Raise e, w') => dispatch handlers e w'
    end.

(** [try: body  finally: fin]: [fin] runs however [body] ends; when [fin]
    itself raises, its exception replaces the pending outcome. *)
Definition try_finally {A} (body : M A) (fin : M unit) : M A :=
  fun w =>
    match body w with
    | (r, w') =>
        match fin w' with
        | (Ok _, w'') => (r, w'')
        | (Raise e, w'') => (Raise e, w'')
        end
    end.

(** [print(line)] *)
Definition print (line : string) : M unit :=
  fun w => (Ok tt, mkWorld w.(store_connection) w.(cursor) w.(live)
                     w.(next_conn) w.(table) w.(clock) w.(log)
                     (w.(stdout) ++ [line])%list).

Definition emit (r : LogRecord) : M unit :=
  fun w => (Ok tt, mkWorld w.(store_connection) w.(cursor) w.(live)
                     w.(next_conn) w.(table) w.(clock) (w.(log) ++ [r])%list
                     w.(stdout)).

(** [exit(code)] *)
Definition py_exit {A} (code : Z) : M A := raise (Exc (SystemExit code) "" None).

(** [log.warning], [log.info], [log.exception] of the logger [name].
    [log.exception] logs at level ERROR and attaches the exception being
    handled. *)
Definition log_info (name msg : string) : M unit :=
  emit (mkLogRecord name INFO msg None).

Definition log_warning (name msg : string) : M unit :=
  emit (mkLogRecord name WARNING msg None).

Definition log_exception (name msg : string) (e : exn) : M unit :=
  emit (mkLogRecord name ERROR msg (Some e)).

(* ===================================================================== *)
(** ** store.py *)
(* ===================================================================== *)

Module Store.

Definition log_name : string := "STORE".

Definition set_connection (c : option nat) : M unit :=
  fun w => (Ok tt, mkWorld c w.(cursor) w.(live) w.(next_conn)
                     w.(table) w.(clock) w.(log) w.(stdout)).

Definition set_cursor (c : option nat) : M unit :=
  fun w => (Ok tt, mkWorld w.(store_connection) c w.(live) w.(next_conn)
                     w.(table) w.(clock) w.(log) w.(stdout)).

Definition set_table (t : option (list Row)) : M unit :=
  fun w => (Ok tt, mkWorld w.(store_connection) w.(cursor) w.(live)
                     w.(next_conn) t w.(clock) w.(log) w.(stdout)).

Definition get_world : M World := fun w => (Ok w, w).

(** [sqlite3.connect(DB_PATH)]: a fresh open connection. *)
Definition sqlite3_connect : M nat :=
  fun w => (Ok w.(next_conn),
            mkWorld w.(store_connection) w.(cursor)
              (w.(next_conn) :: w.(live)) (S w.(next_conn))
              w.(table) w.(clock) w.(log) w.(stdout)).

(** [conn.close()]; closing a closed connection is allowed by sqlite3. *)
Definition conn_close (c : nat) : M unit :=
  fun w => (Ok tt,
            mkWorld w.(store_connection) w.(cursor)
              (filter (fun c' => negb (c' =? c)%nat) w.(live))
              w.(next_conn) w.(table) w.(clock) w.(log) w.(stdout)).

Definition is_live (c : nat) (w : World) : bool :=
  existsb (fun c' => (c' =? c)%nat) w.(live).

Definition no_attribute (attr : string) : exn :=
  Exc AttributeError
    ("'NoneType' object has no attribute '" ++ attr ++ "'") None.

Definition closed_database : exn :=
  Exc ProgrammingError "Cannot operate on a closed database." None.

Definition no_such_table : exn :=
  Exc OperationalError "no such table: DownloadedDocs" None.

(** What every [_cursor.execute(..)] does first: the global must hold a
    cursor, and the cursor's connection must still be open. *)
Definition cursor_ready : M unit :=
  w <- get_world ;;
  match w.(cursor) with
  | None => raise (no_attribute "execute")
  | Some c => if is_live c w then ret tt else raise closed_database
  end.

(** [_store_connection.commit()] *)
Definition commit : M unit :=
  w <- get_world ;;
  match w.(store_connection) with
  | None => raise (no_attribute "commit")
  | Some c => if is_live c w then ret tt else raise closed_database
  end.

(** [close_store_conn]: the test for a closed store prints and falls
    through to [_store_connection.close()]. *)
Definition close_store_conn : M unit :=
  w <- get_world ;;
  (match w.(store_connection) with
   | None => print "store connection already closed"
   | Some _ => ret tt
   end) ;;;
  (match w.(store_connection) with
   | None => raise (no_attribute "close")
   | Some c => conn_close c
   end) ;;;
  set_connection None.

Definition open_store_conn : M unit :=
  w <- get_world ;;
  (match w.(store_connection) with
   | Some _ => close_store_conn
   | None => ret tt
   end) ;;;
  c <- sqlite3_connect ;;
  set_connection (Some c) ;;;
  set_cursor (Some c).

(** [CREATE TABLE IF NOT EXISTS DownloadedDocs (..)] and commit. *)
Definition create_downloaded_info_table : M unit :=
  cursor_ready ;;;
  w <- get_world ;;
  (match w.(table) with
   | None => set_table (Some [])
   | Some _ => ret tt
   end) ;;;
  commit.

Definition init_store : M unit :=
  open_store_conn ;;;
  create_downloaded_info_table.

(** The key of the constraint [UNIQUE(ticker, doc_type)]. *)
Definition same_key (ticker doc_type : string) (r : Row) : bool :=
  (r.(row_ticker) =? ticker) && (r.(row_doc_type) =? doc_type).

(** The rowid SQLite gives a row inserted without [id]: one more than
    the largest rowid in the table, [1] in an empty table. *)
Definition new_rowid (rows : list Row) : Z :=
  fold_right (fun r m => Z.max r.(row_id) m) 0%Z rows + 1.

(** [INSERT INTO DownloadedDocs (ticker, doc_type, dir_path) VALUES ..]
    under [ON CONFLICT REPLACE]: the rows that hold the same
    [(ticker, doc_type)] are deleted, then the new row is stored with a
    fresh [id] and the default [updated_at]. *)
Definition insert_row (now ticker doc_type dir_path : string)
  (rows : list Row) : list Row :=
  (filter (fun r => negb (same_key ticker doc_type r)) rows
     ++ [mkRow (new_rowid rows) ticker doc_type dir_path now])%list.

(** [save_info]. Rows written through a connection are visible to it
    at once, so the table changes at [execute]; [commit] then needs the
    connection global. *)
Definition save_info (ticker : TickerType) (doc_type : DocType)
  (save_dir : string) : M unit :=
  cursor_ready ;;;
  w <- get_world ;;
  (match w.(table) with
   | None => raise no_such_table
   | Some rows =>
       set_table (Some (insert_row w.(clock) ticker doc_type save_dir rows))
   end) ;;;
  commit.

(** A value in a fetched tuple. *)
Inductive SqlVal : Type :=
| SqlInt (z : Z)
| SqlText (s : string).

(** [SELECT *]: the columns in declaration order. *)
Definition row_tuple (r : Row) : list SqlVal :=
  [SqlInt r.(row_id); SqlText r.(row_ticker); SqlText r.(row_doc_type);
   SqlText r.(row_dir_path); SqlText r.(row_updated_at)].

(** The place of a row in the index SQLite keeps for
    [UNIQUE(ticker, doc_type)], among rows of one ticker: before the first
    row whose [doc_type] is not smaller (bytewise). *)
Fixpoint index_insert (r : Row) (rows : list Row) : list Row :=
  match rows with
  | [] => [r]
  | r' :: rest =>
      if (r.(row_doc_type) <=? r'.(row_doc_type))%string then r :: rows
      else r' :: index_insert r rest
  end.

(** Rows of one ticker as a scan of that index yields them: by
    [doc_type], rows of one [doc_type] by rowid. *)
Definition index_order (rows : list Row) : list Row :=
  fold_right index_insert [] rows.

(** [get_info]: [doc_type=None] selects on the ticker alone; SQLite
    answers that query from the index, so the rows come in index order
    (there is no [ORDER BY]). *)
Definition get_info (ticker : TickerType) (doc_type : option DocType)
  : M (list (list SqlVal)) :=
  let select :=
    match doc_type with
    | None => fun rows : list Row =>
        index_order (filter (fun r => r.(row_ticker) =? ticker) rows)
    | Some d => filter (same_key ticker d)
    end in
  cursor_ready ;;;
  w <- get_world ;;
  match w.(table) with
  | None => raise no_such_table
  | Some rows => ret (map row_tuple (select rows))
  end.

(** [xs[i]] on a Python list or tuple, for [i >= 0]. *)
Definition index {A} (xs : list A) (i : nat) : Result A :=
  match nth_error xs i with
  | Some x => Ok x
  | None => Raise (Exc IndexError "list index out of range" None)
  end.

End Store.

(* ===================================================================== *)
(** ** The parse tree the XBRL parser hands back (BeautifulSoup) *)
(* ===================================================================== *)

Module Soup.

(** A node of the tree: an element with its tag name and children, or a
    piece of text. The parsed document itself is an element. *)
Inductive Node : Type :=
| Tag (name : string) (children : list Node)
| NavigableString (text : string).

Definition is_tag (n : Node) : bool :=
  match n with Tag _ _ => true | NavigableString _ => false end.

Definition name_of (n : Node) : string :=
  match n with Tag nm _ => nm | NavigableString _ => "" end.

(** [n.descendants]: everything below [n], in document order. *)
Fixpoint descendants (n : Node) : list Node :=
  match n with
  | NavigableString _ => []
  | Tag _ cs =>
      (fix below (l : list Node) : list Node :=
         match l with
         | [] => []
         | c :: l' => c :: (descendants c ++ below l')%list
         end) cs
  end.

(** [n.get_text()]: the strings below [n], concatenated. *)
Fixpoint get_text (n : Node) : string :=
  match n with
  | NavigableString t => t
  | Tag _ cs =>
      (fix texts (l : list Node) : string :=
         match l with
         | [] => ""
         | c :: l' => get_text c ++ texts l'
         end) cs
  end.

(** The Python values the filter lambda computes with. *)
Inductive PyVal : Type :=
| PyBool (b : bool)
| PyString (s : string)
| PyNone
| PyTag (n : Node).

(** [bool(v)]: an empty string and [None] are false, a tag is true. *)
Definition truthy (v : PyVal) : bool :=
  match v with
  | PyBool b => b
  | PyString s => negb (s =? "")
  | PyNone => false
  | PyTag _ => true
  end.

(** [a or b] and [a and b] return one of their operands. *)
Definition py_or (a b : PyVal) : PyVal := if truthy a then a else b.
Definition py_and (a b : PyVal) : PyVal := if truthy a then b else a.

(** [x.find(name)]: the first element below [x] with that tag name. *)
Definition find (x : Node) (name : string) : PyVal :=
  match List.find (fun d => is_tag d && (name_of d =? name))
                  (descendants x) with
  | Some d => PyTag d
  | None => PyNone
  end.

(** [doc.find_all(f)]: the elements below [doc] on which [f] is true. *)
Definition find_all (f : Node -> PyVal) (doc : Node) : list Node :=
  filter (fun d => is_tag d && truthy (f d)) (descendants doc).

End Soup.

(* ===================================================================== *)
(** ** main.py *)
(* ===================================================================== *)

(** [langchain.docstore.document.Document] *)
Record Document : Type := mkDocument {
  page_content : string;
  metadata : list (string * string)
}.

(** [d[key]] on a [dict] with string keys. *)
Fixpoint dict_get (d : list (string * string)) (key : string)
  : Result string :=
  match d with
  | [] => Raise (Exc (OtherException "KeyError") key None)
  | (k, v) :: d' => if k =? key then Ok v else dict_get d' key
  end.

Definition nl : string := String (ascii_of_nat 10) "".

(** ["\n\n"] *)
Definition blank_line : string := nl ++ nl.

Module Chunker.

Definition chunk_size : nat := 1200.
Definition chunk_overlap : nat := 20.

(** Paragraph breaks, then line breaks, then spaces; raw characters are
    the last resort, taken when none of these occurs. *)
Definition separators : list string := [blank_line; nl; " "].

(** The end of the last occurrence of [sep] that lies inside the first
    [width] characters of [text] and ends after position [least]. *)
Fixpoint last_cut (sep : string) (least width pos : nat) (text : string)
  : option nat :=
  match text with
  | EmptyString => None
  | String _ rest =>
      let here :=
        let stop := pos + String.length sep in
        if String.prefix sep text && (stop <=? width)%nat
           && (least <? stop)%nat
        then Some stop else None in
      match last_cut sep least width (S pos) rest with
      | Some later => Some later
      | None => here
      end
  end.

(** Where the window that starts [text] is cut: at the best separator
    that occurs, at [chunk_size] raw characters otherwise. *)
Fixpoint cut_point (seps : list string) (text : string) : nat :=
  match seps with
  | [] => chunk_size
  | sep :: rest =>
      match last_cut sep chunk_overlap chunk_size 0 text with
      | Some stop => stop
      | None => cut_point rest text
      end
  end.

(** Modelled from the spec: [RecursiveCharacterTextSplitter.split_text]
    with [chunk_size=1200] and [chunk_overlap=20], a class of the
    LangChain library that main.py constructs and calls; its code is
    not part of the sources. Section 4.4 describes it: a sliding window
    over the text, chunks of at most 1200 characters, consecutive
    chunks overlapping by 20 characters, cut at a paragraph break, else
    a line break, else a space, else between raw characters; an empty
    text yields no chunk. [fuel] bounds the number of windows. *)
Fixpoint split_window (fuel : nat) (text : string) : list string :=
  match fuel with
  | O => []
  | S fuel' =>
      if (String.length text =? 0)%nat then []
      else if (String.length text <=? chunk_size)%nat then [text]
      else
        let stop := cut_point separators text in
        substring 0 stop text
          :: split_window fuel'
               (substring (stop - chunk_overlap)
                  (String.length text - (stop - chunk_overlap)) text)
  end.

(** Every window after the first starts at least one character further,
    so the length of the text is fuel enough. *)
Definition split_text (text : string) : list string :=
  split_window (S (String.length text)) text.

(** Modelled from the spec: [TextSplitter.split_documents] of LangChain:
    every document is split in turn, in order, and each chunk inherits
    the metadata of its document (section 3, TextChunk). *)
Definition TextSplitter_split_documents (docs : list Document)
  : list Document :=
  flat_map
    (fun d => map (fun t => mkDocument t d.(metadata))
                  (split_text d.(page_content)))
    docs.

End Chunker.

Module Main.

Import Soup.

Definition log_name : string := "MAIN".

Definition _COMPANY : string := "Company".
Definition _EMAIL : string := "my.email@domain.com".

(** [str(n)] for a length. *)
Definition str_of_nat (n : nat) : string :=
  DecimalString.NilEmpty.string_of_uint (Nat.to_uint n).

(** Line 100: [lambda x: (x.name == 'p' or 'div') and x.find('span')]. *)
Definition p_span_filter (x : Node) : PyVal :=
  py_and (py_or (PyBool (name_of x =? "p")) (PyString "div"))
         (find x "span").

(** Lines 100-101: the text one parsed file contributes. *)
Definition extract_text (xbrl_doc : Node) : string :=
  let p_span_tags := find_all p_span_filter xbrl_doc in
  PyStr.join " " (map get_text p_span_tags).

(** [for x in xs: state = body(x, state)] *)
Fixpoint for_each {A S : Type} (body : A -> S -> M S) (xs : list A)
  (s : S) : M S :=
  match xs with
  | [] => ret s
  | x :: xs' => s' <- body x s ;; for_each body xs' s'
  end.

Section Collaborators.

(** [Downloader(company, email, save_dir)] of sec_edgar_downloader: the
    construction of the client, which can fail on its own. *)
Variable Downloader_new : string -> string -> string -> Result unit.

(** [dl.get(doc_type, ticker, limit)] on the client constructed from
    [company], [email] and [save_dir]: the number of filings fetched, or
    the failure of the retrieval. *)
Variable Downloader_get :
  string -> string -> string -> DocType -> TickerType -> option Z
  -> Result Z.

(** The text files [DirectoryLoader(dir_path, .., loader_cls=TextLoader)]
    finds below a directory (every [.txt] file, at any depth), in the
    order it enumerates them: path and content. *)
Variable text_files : string -> Result (list (string * string)).

(** [XBRLParser().parse(path)] *)
Variable XBRLParser_parse : string -> Result Node.

(** [Qdrant.from_documents(chunks, embedding, .., collection_name)] *)
Variable Qdrant_from_documents :
  list Document -> string -> Result unit.

(** [TextLoader] wraps a file as a document that records its path. *)
Definition text_document (file : string * string) : Document :=
  mkDocument (snd file) [("source", fst file)].

Definition DirectoryLoader_load (dir_path : string)
  : Result (list Document) :=
  match text_files dir_path with
  | Ok files => Ok (map text_document files)
  | Raise e => Raise e
  end.

(** Lines 55-63: the client is constructed on line 56, before the [try]
    statement of line 57. *)
Definition download_documents (ticker : TickerType) (doc_type : DocType)
  (save_dir : string) (docs_number : option Z) : M string :=
  let ticker := PyStr.upper ticker in
  lift (Downloader_new _COMPANY _EMAIL save_dir) ;;;
  try_except
    (lift (Downloader_get _COMPANY _EMAIL save_dir doc_type ticker
             docs_number) ;;; ret tt)
    [(is_Exception, fun e =>
        raise (Exc Exception_
                 ("Failed to fetch document for " ++ ticker
                    ++ " from Edgar database") (Some e)))] ;;;
  ret (save_dir ++ "/sec-edgar-filings/" ++ ticker ++ "/" ++ doc_type
         ++ "/").

(** The [try] statement of lines 89-99; [None] stands for [continue]. *)
Definition parse_or_skip (document : Document) : M (option Node) :=
  try_except
    (source <- lift (dict_get document.(metadata) "source") ;;
     xbrl_doc <- lift (XBRLParser_parse source) ;;
     ret (Some xbrl_doc))
    [(is_XBRLParserException, fun e =>
        source <- lift (dict_get document.(metadata) "source") ;;
        log_warning log_name
          ("Skipped document [" ++ source
             ++ "]: is not a XBRL document") ;;;
        ret None);
     (is_IndexError, fun e =>
        source <- lift (dict_get document.(metadata) "source") ;;
        log_warning log_name
          ("Skipped document [" ++ source
             ++ "]: is not a valid XBRL document. " ++ exn_msg e) ;;;
        ret None);
     (is_Exception, fun e =>
        source <- lift (dict_get document.(metadata) "source") ;;
        log_exception log_name
          ("Failed to parse document [" ++ source ++ "]") e ;;;
        ret None)].

(** The body of the inner loop, lines 89-102. *)
Definition combine_file (document : Document) (xbrl_texts : list string)
  : M (list string) :=
  parsed <- parse_or_skip document ;;
  match parsed with
  | None => ret xbrl_texts
  | Some xbrl_doc => ret (xbrl_texts ++ [extract_text xbrl_doc])%list
  end.

(** The body of the outer loop, lines 84-102. *)
Definition combine_dir (dir_path : string) (xbrl_texts : list string)
  : M (list string) :=
  documents <- lift (DirectoryLoader_load dir_path) ;;
  for_each combine_file documents xbrl_texts.

Definition combine_documents (dir_paths : list string) : M Document :=
  xbrl_texts <- for_each combine_dir dir_paths [] ;;
  let all_document_texts := PyStr.join blank_line xbrl_texts in
  ret (mkDocument all_document_texts []).

Definition split_documents (docs : list Document) : list Document :=
  Chunker.TextSplitter_split_documents docs.

Definition vectorize_and_save_to_store (text_chunks : list Document)
  (collection_name : string) : M unit :=
  lift (Qdrant_from_documents text_chunks collection_name).

(** A fetched value used where a [str] is expected. *)
Definition as_str (v : Store.SqlVal) : Result string :=
  match v with
  | Store.SqlText s => Ok s
  | Store.SqlInt _ =>
      Raise (Exc (OtherException "TypeError") "expected str" None)
  end.

Definition pipeline (ticker : TickerType) (doc_type : DocType)
  (save_dir : string) : M unit :=
  actually_docs_save_path <-
    download_documents ticker doc_type save_dir None ;;
  log_info log_name
    ("Downloaded " ++ doc_type ++ " documents for " ++ ticker) ;;;
  Store.save_info ticker doc_type actually_docs_save_path ;;;
  log_info log_name
    ("Saved " ++ doc_type ++ " documents for " ++ ticker) ;;;
  rows <- Store.get_info ticker (Some doc_type) ;;
  row <- lift (Store.index rows 0) ;;
  field <- lift (Store.index row 3) ;;
  docs_path <- lift (as_str field) ;;
  combined_docs <- combine_documents [docs_path] ;;
  log_info log_name
    ("Combined " ++ doc_type ++ " documents for " ++ ticker) ;;;
  let splitted_docs := split_documents [combined_docs] in
  log_info log_name
    ("Split texts for " ++ ticker ++ " " ++ doc_type ++ " into "
       ++ str_of_nat (List.length splitted_docs) ++ " chunks") ;;;
  let collection_name := PyStr.lower (ticker ++ "_" ++ doc_type) in
  log_info log_name
    ("Embedding and Saving " ++ doc_type ++ " documents for " ++ ticker
       ++ " to Qdrant...") ;;;
  vectorize_and_save_to_store splitted_docs collection_name ;;;
  log_info log_name
    ("Uploaded " ++ ticker ++ " " ++ doc_type ++ " to Qdrant to "
       ++ collection_name ++ " collection").

(** [argparse.Namespace] as run.py fills it. *)
Record Args : Type := mkArgs {
  arg_ticker : string;
  arg_doctype : string;
  arg_save_dir : string
}.

Definition main (args : Args) : M unit :=
  let ticker := PyStr.upper args.(arg_ticker) in
  let doc_type := PyStr.upper args.(arg_doctype) in
  let save_dir := args.(arg_save_dir) in
  Store.init_store ;;;
  try_finally
    (try_except
       (pipeline ticker doc_type save_dir)
       [(is_KeyboardInterrupt, fun _ => py_exit 0);
        (is_Exception, fun e =>
           log_exception log_name
             ("Problem executing the pipeline for " ++ ticker ++ " "
                ++ doc_type) e)])
    (Store.close_store_conn ;;;
     log_info log_name "Exit").

End Collaborators.

End Main.

(* ===================================================================== *)
(** ** Vocabulary of the statements *)
(* ===================================================================== *)

Module StoreSpec.

Import Store.

(** The store is open: both globals are set on one open connection and
    the table has been created. *)
Definition store_open (w : World) : bool :=
  match w.(store_connection), w.(cursor), w.(table) with
  | Some c, Some c', Some _ => (c =? c')%nat && is_live c w
  | _, _, _ => false
  end.

(** The live records of a [(ticker, doc_type)] pair. *)
Definition records (ticker doc_type : string) (w : World) : list Row :=
  match w.(table) with
  | Some rows => filter (same_key ticker doc_type) rows
  | None => []
  end.

Definition key (r : Row) : string * string :=
  (r.(row_ticker), r.(row_doc_type)).

(** What [UNIQUE(ticker, doc_type)] promises of a table. *)
Definition unique_keys (w : World) : Prop :=
  match w.(table) with
  | Some rows => NoDup (map key rows)
  | None => True
  end.

(** A sequence of [save_info] calls. *)
Fixpoint save_all (saves : list (string * string * string)) : M unit :=
  match saves with
  | [] => ret tt
  | (ticker, doc_type, dir_path) :: rest =>
      save_info ticker doc_type dir_path ;;; save_all rest
  end.

(** The directory the last save of a pair recorded, if the pair was
    saved at all. *)
Fixpoint last_saved (ticker doc_type : string)
  (saves : list (string * string * string)) : option string :=
  match saves with
  | [] => None
  | (t, d, p) :: rest =>
      match last_saved ticker doc_type rest with
      | Some p' => Some p'
      | None =>
          if (t =? ticker) && (d =? doc_type) then Some p else None
      end
  end.

End StoreSpec.

(** The world with more log records. *)
Definition add_log (records : list LogRecord) (w : World) : World :=
  mkWorld w.(store_connection) w.(cursor) w.(live) w.(next_conn)
    w.(table) w.(clock) (w.(log) ++ records)%list w.(stdout).

Module CombineSpec.

Import Soup Main.

Section Files.

Variable text_files : string -> Result (list (string * string)).
Variable XBRLParser_parse : string -> Result Node.

(** The paths of the files found below one directory. *)
Definition loaded (dir_path : string) : list string :=
  match text_files dir_path with
  | Ok files => map fst files
  | Raise _ => []
  end.

(** All files, in enumeration order, directories in input order. *)
Definition sources (dir_paths : list string) : list string :=
  flat_map loaded dir_paths.

Definition parsed (source : string) : list Node :=
  match XBRLParser_parse source with
  | Ok xbrl_doc => [xbrl_doc]
  | Raise _ => []
  end.

(** The files that parse, in the same order. *)
Definition parsed_docs (dir_paths : list string) : list Node :=
  flat_map parsed (sources dir_paths).

(** What a file adds to the log: nothing when it parses, one record
    when it does not. *)
Definition skip_record (source : string) : list LogRecord :=
  match XBRLParser_parse source with
  | Ok _ => []
  | Raise e =>
      if is_XBRLParserException e then
        [mkLogRecord "MAIN" WARNING
           ("Skipped document [" ++ source
              ++ "]: is not a XBRL document") None]
      else if is_IndexError e then
        [mkLogRecord "MAIN" WARNING
           ("Skipped document [" ++ source
              ++ "]: is not a valid XBRL document. " ++ exn_msg e) None]
      else
        [mkLogRecord "MAIN" ERROR
           ("Failed to parse document [" ++ source ++ "]") (Some e)]
  end.

(** Every directory of the input can be listed. *)
Definition loads_ok (dir_paths : list string) : bool :=
  forallb
    (fun d => match text_files d with Ok _ => true | Raise _ => false end)
    dir_paths.

(** Every parse failure is an [Exception]: one of the three shapes
    the [try] statement names (the last one takes all the rest). *)
Definition parse_failures_are_exceptions (dir_paths : list string)
  : bool :=
  forallb
    (fun source =>
       match XBRLParser_parse source with
       | Ok _ => true
       | Raise e => is_Exception e
       end)
    (sources dir_paths).

(** No file that parses has any text to extract. *)
Definition no_text (dir_paths : list string) : bool :=
  forallb (fun xbrl_doc => extract_text xbrl_doc =? "")
          (parsed_docs dir_paths).

End Files.

End CombineSpec.

Module MainSpec.

(** Two worlds with the same store globals and the same open
    connections. *)
Definition same_handles (w w' : World) : Prop :=
  w'.(store_connection) = w.(store_connection) /\
  w'.(cursor) = w.(cursor) /\
  w'.(live) = w.(live).

(** A computation that leaves the store globals and the connections as
    they are, however it ends. *)
Definition keeps_handles {A} (m : M A) : Prop :=
  forall w, same_handles w (snd (m w)).

(** What the handlers of [main] add to the log for an outcome of the
    pipeline. *)
Definition handler_records (ticker doc_type : string)
  (outcome : Result unit) : list LogRecord :=
  match outcome with
  | Ok _ => []
  | Raise e =>
      if is_KeyboardInterrupt e then []
      else if is_Exception e then
        [mkLogRecord "MAIN" ERROR
           ("Problem executing the pipeline for " ++ ticker ++ " "
              ++ doc_type) (Some e)]
      else []
  end.

(** How [main] ends for an outcome of the pipeline. *)
Definition main_outcome (outcome : Result unit) : Result unit :=
  match outcome with
  | Ok _ => Ok tt
  | Raise e =>
      if is_KeyboardInterrupt e then Raise (Exc (SystemExit 0) "" None)
      else if is_Exception e then Ok tt
      else Raise e
  end.

End MainSpec.

(* ===================================================================== *)
(** ** Worlds, files and collaborators to run the model on *)
(* ===================================================================== *)

Module Demo.

Import Soup.

(** A process that has not opened the store, on a machine without a
    database file. *)
Definition fresh : World :=
  mkWorld None None [] 0 None "2024-01-01 00:00:00" [] [].

(** The process after [init_store()]. *)
Definition started : World := snd (Store.init_store fresh).

(** Two paragraphs with one styled span each. *)
Definition narrative : Node :=
  Tag "[document]"
    [Tag "p" [Tag "span" [NavigableString "Revenue increased."]];
     Tag "p" [Tag "span" [NavigableString "Risks include X."]]].

(** A table cell with a span: neither a paragraph nor a division. *)
Definition cell : Node :=
  Tag "[document]"
    [Tag "td" [Tag "span" [NavigableString "1,234"]]].

(** A filing without any span. *)
Definition numbers_only : Node :=
  Tag "[document]" [Tag "p" [NavigableString "42"]].

Definition timeout : exn :=
  Exc (OtherException "ConnectionError") "timed out" None.

(** A client that can always be constructed. *)
Definition client (company email save_dir : string) : Result unit := Ok tt.

Definition bad_email : exn :=
  Exc (OtherException "ValueError") "invalid email address" None.

(** A client whose construction is refused. *)
Definition refused_client (company email save_dir : string) : Result unit :=
  Raise bad_email.

Definition failing_download
  (company email save_dir doc_type ticker : string) (limit : option Z)
  : Result Z := Raise timeout.

Definition working_download
  (company email save_dir doc_type ticker : string) (limit : option Z)
  : Result Z := Ok 1%Z.

Definition interrupted_download
  (company email save_dir doc_type ticker : string) (limit : option Z)
  : Result Z := Raise (Exc KeyboardInterrupt "" None).

Definition not_found : exn :=
  Exc (OtherException "FileNotFoundError") "no such directory" None.

(** Directory [A] holds a filing and three files that do not parse,
    [B] a second filing, [E] two filings without narrative text, [N]
    a file that is no filing at all. *)
Definition text_files (dir_path : string)
  : Result (list (string * string)) :=
  if dir_path =? "A" then
    Ok [("A/a.txt", "<p>..</p>"); ("A/plain.txt", "hello");
        ("A/broken.txt", "<xbrl>"); ("A/odd.txt", "?")]
  else if dir_path =? "B" then Ok [("B/b.txt", "<td>..</td>")]
  else if dir_path =? "E" then
    Ok [("E/1.txt", "<p>42</p>"); ("E/2.txt", "<p>42</p>")]
  else if dir_path =? "N" then Ok [("N/readme.txt", "hello")]
  else if dir_path =? "./sec-edgar-filings/AAPL/10-K/" then
    Ok [("./sec-edgar-filings/AAPL/10-K/a.txt", "<p>..</p>")]
  else Raise not_found.

Definition XBRLParser_parse (source : string) : Result Node :=
  if source =? "A/a.txt" then Ok narrative
  else if (source =? "A/plain.txt") || (source =? "N/readme.txt") then
    Raise (Exc XBRLParserException "The xbrl file is empty!" None)
  else if source =? "A/broken.txt" then
    Raise (Exc IndexError "list index out of range" None)
  else if source =? "A/odd.txt" then
    Raise (Exc (OtherException "ValueError") "bad markup" None)
  else if source =? "B/b.txt" then Ok cell
  else if source =? "./sec-edgar-filings/AAPL/10-K/a.txt" then Ok narrative
  else Ok numbers_only.

Definition Qdrant_from_documents (chunks : list Document)
  (collection_name : string) : Result unit := Ok tt.

Definition aapl : Main.Args := Main.mkArgs "aapl" "10-K" ".".

End Demo.

(* ===================================================================== *)
(** ** Further vocabulary: frames, row identifiers, fetched tuples *)
(* ===================================================================== *)

Module Frame.

Import MainSpec.

(** A computation whose final world is related by [R] to the world it
    started in, however it ends. *)
Definition respects (R : World -> World -> Prop) {A} (m : M A) : Prop :=
  forall w, R w (snd (m w)).

(** Nothing but the log differs, and the log has only grown. *)
Definition log_grows (w w' : World) : Prop :=
  exists records, w' = add_log records w.

(** Nothing but the table and the log differ, and the log has only
    grown. *)
Definition table_and_log (w w' : World) : Prop :=
  same_handles w w' /\
  w'.(next_conn) = w.(next_conn) /\
  w'.(clock) = w.(clock) /\
  w'.(stdout) = w.(stdout) /\
  exists records, w'.(log) = (w.(log) ++ records)%list.

End Frame.

Module Tuples.

Import Store.

(** [row[i] == s] on a fetched tuple. *)
Definition column_is (i : nat) (s : string) (row : list SqlVal) : bool :=
  match nth_error row i with
  | Some (SqlText s') => s' =? s
  | _ => false
  end.

(** The text in column [i] of a fetched tuple. *)
Definition column (i : nat) (row : list SqlVal) : string :=
  match nth_error row i with
  | Some (SqlText s) => s
  | _ => ""
  end.

(** Fetched tuples come in increasing order of column [i]. *)
Definition ordered_by_column (i : nat) (rows : list (list SqlVal)) : Prop :=
  Sorted (fun a b => (column i a <=? column i b)%string = true) rows.

(** The rows of a table have strictly increasing [id]s. *)
Definition ids_increasing (rows : list Row) : Prop :=
  StronglySorted (fun a b => (a.(row_id) < b.(row_id))%Z) rows.

Definition table_ids_increasing (w : World) : Prop :=
  match w.(table) with
  | Some rows => ids_increasing rows
  | None => True
  end.

End Tuples.

Module SoupSpec.

Import Soup.

(** An element named [span] lies below [x]. *)
Definition has_span (x : Node) : bool :=
  existsb (fun d => is_tag d && (name_of d =? "span")) (descendants x).

End SoupSpec.

Module Scenario.

Import Soup.

(** A parser that is interrupted on the third file of directory [A]. *)
Definition interrupted_parse (source : string) : Result Node :=
  if source =? "A/broken.txt" then Raise (Exc KeyboardInterrupt "" None)
  else Demo.XBRLParser_parse source.

(** A vector index that refuses the upload. *)
Definition unreachable_index (chunks : list Document)
  (collection_name : string) : Result unit :=
  Raise (Exc (OtherException "ConnectionError") "index unreachable" None).

End Scenario.

Module Stages.

Import Main.

(** An INFO record of the logger of main.py. *)
Definition info (msg : string) : LogRecord :=
  mkLogRecord "MAIN" INFO msg None.

(** Where [download_documents] puts the filings of a ticker. *)
Definition filings_dir (save_dir ticker doc_type : string) : string :=
  save_dir ++ "/sec-edgar-filings/" ++ PyStr.upper ticker ++ "/" ++ doc_type
    ++ "/".

Section Collaborators.

Variable Downloader_new : string -> string -> string -> Result unit.
Variable Downloader_get :
  string -> string -> string -> DocType -> TickerType -> option Z
  -> Result Z.
Variable text_files : string -> Result (list (string * string)).
Variable XBRLParser_parse : string -> Result Soup.Node.
Variable Qdrant_from_documents : list Document -> string -> Result unit.

(** How [download_documents] ends: an error of the construction as it
    is; then the directory when [get] returns, the wrapping error when
    [get] raises an [Exception], and any other error of [get] as it
    is. *)
Definition download_outcome (ticker : TickerType) (doc_type : DocType)
  (save_dir : string) (docs_number : option Z) : Result string :=
  match Downloader_new _COMPANY _EMAIL save_dir with
  | Raise e => Raise e
  | Ok _ =>
      match Downloader_get _COMPANY _EMAIL save_dir doc_type
              (PyStr.upper ticker) docs_number with
      | Ok _ => Ok (filings_dir save_dir ticker doc_type)
      | Raise e =>
          Raise (if is_Exception e
                 then Exc Exception_
                        ("Failed to fetch document for "
                           ++ PyStr.upper ticker ++ " from Edgar database")
                        (Some e)
                 else e)
      end
  end.

(** The part of [pipeline] after [save_info] has returned (lines 168 to
    180 of main.py). *)
Definition after_save (ticker : TickerType) (doc_type : DocType) : M unit :=
  log_info log_name
    ("Saved " ++ doc_type ++ " documents for " ++ ticker) ;;;
  rows <- Store.get_info ticker (Some doc_type) ;;
  row <- lift (Store.index rows 0) ;;
  field <- lift (Store.index row 3) ;;
  docs_path <- lift (as_str field) ;;
  combined_docs <- combine_documents text_files XBRLParser_parse
                     [docs_path] ;;
  log_info log_name
    ("Combined " ++ doc_type ++ " documents for " ++ ticker) ;;;
  let splitted_docs := split_documents [combined_docs] in
  log_info log_name
    ("Split texts for " ++ ticker ++ " " ++ doc_type ++ " into "
       ++ str_of_nat (List.length splitted_docs) ++ " chunks") ;;;
  let collection_name := PyStr.lower (ticker ++ "_" ++ doc_type) in
  log_info log_name
    ("Embedding and Saving " ++ doc_type ++ " documents for " ++ ticker
       ++ " to Qdrant...") ;;;
  vectorize_and_save_to_store Qdrant_from_documents splitted_docs
    collection_name ;;;
  log_info log_name
    ("Uploaded " ++ ticker ++ " " ++ doc_type ++ " to Qdrant to "
       ++ collection_name ++ " collection").

End Collaborators.

End Stages.

Module Runs.

Import Main CombineSpec Stages.

Section Collaborators.

Variable text_files : string -> Result (list (string * string)).
Variable XBRLParser_parse : string -> Result Soup.Node.
Variable Qdrant_from_documents : list Document -> string -> Result unit.

(** The text combined from the files of one directory. *)
Definition combined_text (dir_path : string) : string :=
  PyStr.join blank_line
    (map extract_text (parsed_docs text_files XBRLParser_parse [dir_path])).

(** The chunks made of that text. *)
Definition chunks_of (dir_path : string) : list Document :=
  split_documents [mkDocument (combined_text dir_path) []].

(** What the vector index answers to the upload of these chunks to the
    collection of the pair. *)
Definition upload_answer (ticker doc_type dir_path : string)
  : Result unit :=
  Qdrant_from_documents (chunks_of dir_path)
    (PyStr.lower (ticker ++ "_" ++ doc_type)).

(** The log of a pipeline run that reaches the upload: the stage messages
    in order, the records of the skipped files before "Combined", and
    "Uploaded" when the index has accepted the upload. *)
Definition pipeline_log (ticker doc_type dir_path : string)
  : list LogRecord :=
  ([info ("Downloaded " ++ doc_type ++ " documents for " ++ ticker);
    info ("Saved " ++ doc_type ++ " documents for " ++ ticker)]
   ++ flat_map (skip_record XBRLParser_parse)
        (sources text_files [dir_path])
   ++ [info ("Combined " ++ doc_type ++ " documents for " ++ ticker);
       info ("Split texts for " ++ ticker ++ " " ++ doc_type ++ " into "
               ++ str_of_nat (List.length (chunks_of dir_path))
               ++ " chunks");
       info ("Embedding and Saving " ++ doc_type ++ " documents for "
               ++ ticker ++ " to Qdrant...")]
   ++ match upload_answer ticker doc_type dir_path with
      | Ok _ =>
          [info ("Uploaded " ++ ticker ++ " " ++ doc_type
                   ++ " to Qdrant to "
                   ++ PyStr.lower (ticker ++ "_" ++ doc_type)
                   ++ " collection")]
      | Raise _ => []
      end)%list.

End Collaborators.

End Runs.

(* ===================================================================== *)
(** ** The metadata store *)
(* ===================================================================== *)

Import Store StoreSpec.

Lemma same_key_spec ticker doc_type r :
  same_key ticker doc_type r = true <-> key r = (ticker, doc_type).
Proof.
  unfold same_key, key. rewrite andb_true_iff, !String.eqb_eq.
  split; [intros [-> ->]; reflexivity | intros H; inversion H; auto].
Qed.

Lemma filter_same_key_insert now ticker doc_type dir_path rows :
  filter (same_key ticker doc_type)
         (insert_row now ticker doc_type dir_path rows)
  = [mkRow (new_rowid rows) ticker doc_type dir_path now].
Proof.
  unfold insert_row. rewrite filter_app. simpl.
  assert (E : same_key ticker doc_type
                (mkRow (new_rowid rows) ticker doc_type dir_path now)
              = true)
    by (unfold same_key; simpl; rewrite !String.eqb_refl; reflexivity).
  rewrite E. clear E.
  replace (filter _ (filter _ rows)) with (@nil Row); [reflexivity|].
  symmetry. induction rows as [|r rows IH]; simpl; [reflexivity|].
  destruct (same_key ticker doc_type r) eqn:Er; simpl; [exact IH|].
  rewrite Er. exact IH.
Qed.

Lemma filter_other_key_insert now t d p ticker doc_type rows :
  (t =? ticker) && (d =? doc_type) = false ->
  filter (same_key ticker doc_type) (insert_row now t d p rows)
  = filter (same_key ticker doc_type) rows.
Proof.
  intros Hne. unfold insert_row. rewrite filter_app. simpl.
  assert (E : same_key ticker doc_type (mkRow (new_rowid rows) t d p now)
              = false) by (unfold same_key; simpl; exact Hne).
  rewrite E, app_nil_r. clear E.
  induction rows as [|r rows IH]; simpl; [reflexivity|].
  destruct (same_key t d r) eqn:E1; simpl.
  - destruct (same_key ticker doc_type r) eqn:E2; [|exact IH].
    apply same_key_spec in E1. apply same_key_spec in E2.
    rewrite E1 in E2. inversion E2; subst.
    rewrite !String.eqb_refl in Hne. discriminate.
  - destruct (same_key ticker doc_type r); [f_equal|]; exact IH.
Qed.

Lemma NoDup_map_filter {A B} (f : A -> B) (g : A -> bool) (l : list A) :
  NoDup (map f l) -> NoDup (map f (filter g l)).
Proof.
  induction l as [|a l IH]; simpl; intros H; [constructor|].
  inversion H as [|? ? Hin Hnd]; subst.
  destruct (g a); simpl; [|auto].
  constructor; [|auto].
  intros Hc. apply Hin. rewrite in_map_iff in *.
  destruct Hc as [x [Hx Hf]]. apply filter_In in Hf.
  exists x. tauto.
Qed.

Lemma insert_row_unique now ticker doc_type dir_path rows :
  NoDup (map key rows) ->
  NoDup (map key (insert_row now ticker doc_type dir_path rows)).
Proof.
  intros H. unfold insert_row. rewrite map_app. simpl.
  apply NoDup_app.
  - apply NoDup_map_filter. exact H.
  - constructor; [intros []|constructor].
  - intros k Hk [Hnew|[]]. rewrite in_map_iff in Hk.
    destruct Hk as [r [Hr Hin]]. apply filter_In in Hin.
    destruct Hin as [_ Hneg]. subst k. unfold key in Hnew at 1.
    simpl in Hnew. symmetry in Hnew. apply same_key_spec in Hnew.
    rewrite Hnew in Hneg. discriminate.
Qed.

Lemma unique_at_most_one ticker doc_type rows :
  NoDup (map key rows) ->
  List.length (filter (same_key ticker doc_type) rows) <= 1.
Proof.
  induction rows as [|r rows IH]; simpl; intros H; [lia|].
  inversion H as [|? ? Hin Hnd]; subst.
  destruct (same_key ticker doc_type r) eqn:E; [|auto].
  simpl. replace (filter _ rows) with (@nil Row); [simpl; lia|].
  symmetry. apply same_key_spec in E.
  destruct (filter (same_key ticker doc_type) rows) as [|r' l] eqn:F;
    [reflexivity|].
  exfalso. apply Hin.
  assert (Hr' : In r' (filter (same_key ticker doc_type) rows))
    by (rewrite F; left; reflexivity).
  apply filter_In in Hr'. destruct Hr' as [Hr' Hk].
  apply same_key_spec in Hk. rewrite E, <- Hk. apply in_map. exact Hr'.
Qed.

(** One [save_info] on an open store: it returns, the store stays open,
    and only the table changes. *)
Lemma save_info_open ticker doc_type dir_path w :
  store_open w = true ->
  exists rows,
    w.(table) = Some rows /\
    save_info ticker doc_type dir_path w
    = (Ok tt,
       mkWorld w.(store_connection) w.(cursor) w.(live) w.(next_conn)
         (Some (insert_row w.(clock) ticker doc_type dir_path rows))
         w.(clock) w.(log) w.(stdout)).
Proof.
  unfold store_open. destruct w as [sc cu lv nx tb ck lg out]; simpl.
  destruct sc as [c|]; [|discriminate].
  destruct cu as [c'|]; [|discriminate].
  destruct tb as [rows|]; [|discriminate].
  intros H. apply andb_true_iff in H. destruct H as [Hc Hl].
  apply Nat.eqb_eq in Hc. subst c'. unfold is_live in Hl. simpl in Hl.
  exists rows. split; [reflexivity|].
  unfold save_info, cursor_ready, commit, bind, get_world, set_table, ret,
    is_live. simpl. rewrite Hl. simpl. rewrite Hl. reflexivity.
Qed.


Lemma save_info_open_stays_open ticker doc_type dir_path w :
  store_open w = true ->
  exists w',
    save_info ticker doc_type dir_path w = (Ok tt, w') /\
    store_open w' = true /\
    (unique_keys w -> unique_keys w') /\
    (forall t d,
        map row_dir_path (records t d w')
        = if (ticker =? t) && (doc_type =? d) then [dir_path]
          else map row_dir_path (records t d w)).
Proof.
  intros Hopen. destruct (save_info_open ticker doc_type dir_path w Hopen)
    as [rows [Htab Hrun]].
  eexists. split; [exact Hrun|].
  unfold store_open, unique_keys, records in *. simpl.
  rewrite Htab in *. split; [|split].
  - destruct (store_connection w), (cursor w); try discriminate.
    unfold is_live in *. simpl. exact Hopen.
  - apply insert_row_unique.
  - intros t d. destruct ((ticker =? t) && (doc_type =? d)) eqn:E.
    + apply andb_true_iff in E. destruct E as [E1 E2].
      apply String.eqb_eq in E1, E2. subst t d.
      rewrite filter_same_key_insert. reflexivity.
    + rewrite filter_other_key_insert by exact E. reflexivity.
Qed.

(** C5. On an open store whose table obeys its uniqueness constraint, any
    sequence of saves returns and leaves the store open with at most one
    record for every (ticker, doc_type) pair; the record of a pair holds
    the directory of the last save of that pair (last write wins), and a
    pair that was not saved keeps what it had. *)
Theorem saves_keep_one_record_per_pair saves w :
  store_open w = true ->
  unique_keys w ->
  exists w',
    save_all saves w = (Ok tt, w') /\
    store_open w' = true /\
    unique_keys w' /\
    (forall t d, List.length (records t d w') <= 1) /\
    (forall t d,
        map row_dir_path (records t d w')
        = match last_saved t d saves with
          | Some dir_path => [dir_path]
          | None => map row_dir_path (records t d w)
          end).
Proof.
  revert w. induction saves as [|[[ticker doc_type] dir_path] saves IH];
    intros w Hopen Huniq.
  - exists w. simpl. repeat split; auto.
    intros t d. unfold records, unique_keys in *.
    destruct (table w); [apply unique_at_most_one; exact Huniq | simpl; lia].
  - destruct (save_info_open_stays_open ticker doc_type dir_path w Hopen)
      as [w1 [Hrun [Hopen1 [Huniq1 Hrec1]]]].
    destruct (IH w1 Hopen1 (Huniq1 Huniq))
      as [w' [Hrun' [Hopen' [Huniq' [Hone Hrec']]]]].
    exists w'. split; [|repeat split; auto].
    + simpl. unfold bind. rewrite Hrun. exact Hrun'.
    + intros t d. rewrite Hrec'. simpl.
      destruct (last_saved t d saves); [reflexivity|]. rewrite Hrec1.
      destruct ((ticker =? t) && (doc_type =? d)); reflexivity.
Qed.

(** The scenario of the specification: saving (AAPL, 10-K, "/p1") and then
    (AAPL, 10-K, "/p2") on the store that [init_store] opened. *)
Lemma saves_keep_one_record_per_pair_witness :
  store_open Demo.started = true /\
  unique_keys Demo.started /\
  exists w',
    save_all [("AAPL", "10-K", "/p1"); ("AAPL", "10-K", "/p2")]
      Demo.started = (Ok tt, w') /\
    store_open w' = true /\
    unique_keys w' /\
    (forall t d, List.length (records t d w') <= 1) /\
    (forall t d,
        map row_dir_path (records t d w')
        = match last_saved t d
                  [("AAPL", "10-K", "/p1"); ("AAPL", "10-K", "/p2")] with
          | Some dir_path => [dir_path]
          | None => map row_dir_path (records t d Demo.started)
          end).
Proof.
  split; [reflexivity|]. split; [constructor|].
  apply (saves_keep_one_record_per_pair
           [("AAPL", "10-K", "/p1"); ("AAPL", "10-K", "/p2")]
           Demo.started); [reflexivity | constructor].
Defined.

Example aapl_saved_twice :
  let w := snd (save_all [("AAPL", "10-K", "/p1"); ("AAPL", "10-K", "/p2")]
                  Demo.started) in
  map row_dir_path (records "AAPL" "10-K" w) = ["/p2"].
Proof. reflexivity. Qed.

(** C8. [close_store_conn] on a store that is already closed prints the
    notice on standard output, logs nothing, and then raises
    [AttributeError] from [_store_connection.close()]: it does not return
    normally. *)
Theorem close_on_closed_store_raises cu lv nx tb ck lg out :
  close_store_conn (mkWorld None cu lv nx tb ck lg out)
  = (Raise (Exc AttributeError
              "'NoneType' object has no attribute 'close'" None),
     mkWorld None cu lv nx tb ck lg
       (out ++ ["store connection already closed"])%list).
Proof. reflexivity. Qed.

(** C10. On an open store, [save_info] followed by [get_info] for the same
    pair returns: the result is a list with exactly one row, laid out as
    (id, ticker, doc_type, dir_path, updated_at), so that [rows[0][3]] is
    the directory that was saved. *)
Theorem save_then_get_returns_dir_path ticker doc_type dir_path w :
  store_open w = true ->
  exists w' id updated_at,
    save_info ticker doc_type dir_path w = (Ok tt, w') /\
    get_info ticker (Some doc_type) w'
    = (Ok [[SqlInt id; SqlText ticker; SqlText doc_type; SqlText dir_path;
            SqlText updated_at]], w') /\
    (rows <- get_info ticker (Some doc_type) ;;
     row <- lift (index rows 0) ;;
     lift (index row 3)) w' = (Ok (SqlText dir_path), w').
Proof.
  intros Hopen.
  destruct (save_info_open ticker doc_type dir_path w Hopen)
    as [rows [Htab Hrun]].
  eexists. exists (new_rowid rows), (clock w).
  split; [exact Hrun|].
  unfold store_open in Hopen. rewrite Htab in Hopen.
  destruct (store_connection w) as [c|]; [|discriminate].
  destruct (cursor w) as [c'|]; [|discriminate].
  apply andb_true_iff in Hopen. destruct Hopen as [Hc Hlive].
  apply Nat.eqb_eq in Hc. subst c'. unfold is_live in Hlive.
  assert (Hget :
    get_info ticker (Some doc_type)
      (mkWorld (Some c) (Some c) (live w) (next_conn w)
         (Some (insert_row (clock w) ticker doc_type dir_path rows))
         (clock w) (log w) (stdout w))
    = (Ok [[SqlInt (new_rowid rows); SqlText ticker; SqlText doc_type;
            SqlText dir_path; SqlText (clock w)]],
       mkWorld (Some c) (Some c) (live w) (next_conn w)
         (Some (insert_row (clock w) ticker doc_type dir_path rows))
         (clock w) (log w) (stdout w))).
  { unfold get_info, cursor_ready, bind, get_world, ret, is_live. simpl.
    rewrite Hlive. simpl. rewrite filter_same_key_insert. reflexivity. }
  split; [exact Hget|].
  unfold bind at 1. rewrite Hget. reflexivity.
Qed.

Lemma save_then_get_returns_dir_path_witness :
  store_open Demo.started = true /\
  exists w' id updated_at,
    save_info "AAPL" "10-K" "./sec-edgar-filings/AAPL/10-K/"
      Demo.started = (Ok tt, w') /\
    get_info "AAPL" (Some "10-K") w'
    = (Ok [[SqlInt id; SqlText "AAPL"; SqlText "10-K";
            SqlText "./sec-edgar-filings/AAPL/10-K/";
            SqlText updated_at]], w') /\
    (rows <- get_info "AAPL" (Some "10-K") ;;
     row <- lift (index rows 0) ;;
     lift (index row 3)) w'
    = (Ok (SqlText "./sec-edgar-filings/AAPL/10-K/"), w').
Proof.
  split; [reflexivity|].
  apply (save_then_get_returns_dir_path "AAPL" "10-K"
           "./sec-edgar-filings/AAPL/10-K/" Demo.started).
  reflexivity.
Defined.

(* ===================================================================== *)
(** ** The document combiner *)
(* ===================================================================== *)

Import Soup Main CombineSpec.

Lemma add_log_nil w : add_log [] w = w.
Proof. destruct w. unfold add_log. simpl. rewrite app_nil_r. reflexivity. Qed.

Lemma add_log_app r1 r2 w : add_log (r1 ++ r2) w = add_log r2 (add_log r1 w).
Proof. unfold add_log. simpl. rewrite app_assoc. reflexivity. Qed.

(** The filter never looks at the tag name: [x.name == 'p' or 'div'] is
    [True] or the non-empty string ['div'], true either way. *)
Lemma p_span_filter_any_name x :
  truthy (p_span_filter x) = truthy (find x "span").
Proof.
  unfold p_span_filter, py_or, py_and. simpl.
  destruct (name_of x =? "p"); reflexivity.
Qed.

(** C1. The filter of line 100 accepts every element that contains a span,
    whatever its tag name: a table cell [td] with a span is selected and
    its text is extracted, although it is neither a paragraph nor a
    division. *)
Theorem span_in_any_element_is_selected :
  (forall x, truthy (p_span_filter x) = truthy (find x "span")) /\
  find_all p_span_filter Demo.cell
  = [Tag "td" [Tag "span" [NavigableString "1,234"]]] /\
  extract_text Demo.cell = "1,234".
Proof.
  split; [exact p_span_filter_any_name|]. split; reflexivity.
Qed.

Section Combine.

Variable text_files : string -> Result (list (string * string)).
Variable XBRLParser_parse : string -> Result Node.

Let combine_file := combine_file XBRLParser_parse.
Let combine_dir := combine_dir text_files XBRLParser_parse.
Let combine_documents := combine_documents text_files XBRLParser_parse.

(** One file of the loader: a file that parses appends its text, a file
    that fails with an [Exception] is logged and skipped. *)
Lemma combine_file_run file xbrl_texts w :
  match XBRLParser_parse (fst file) with
  | Ok _ => true
  | Raise e => is_Exception e
  end = true ->
  combine_file (text_document file) xbrl_texts w
  = (Ok (xbrl_texts
           ++ map extract_text (parsed XBRLParser_parse (fst file)))%list,
     add_log (skip_record XBRLParser_parse (fst file)) w).
Proof.
  destruct file as [source content]. simpl. intros Hexc.
  unfold combine_file, Main.combine_file, parse_or_skip, try_except, bind,
    lift, parsed, skip_record. simpl.
  destruct (XBRLParser_parse source) as [xbrl_doc|e]; simpl.
  - rewrite add_log_nil. reflexivity.
  - rewrite app_nil_r.
    destruct (is_XBRLParserException e); [reflexivity|].
    destruct (is_IndexError e); [reflexivity|].
    rewrite Hexc. reflexivity.
Qed.

Lemma combine_files_run files : forall xbrl_texts w,
  forallb (fun source =>
             match XBRLParser_parse source with
             | Ok _ => true
             | Raise e => is_Exception e
             end) (map fst files) = true ->
  for_each combine_file (map text_document files) xbrl_texts w
  = (Ok (xbrl_texts
           ++ map extract_text
                (flat_map (parsed XBRLParser_parse) (map fst files)))%list,
     add_log (flat_map (skip_record XBRLParser_parse) (map fst files)) w).
Proof.
  induction files as [|file files IH]; intros xbrl_texts w Hexc.
  - simpl. rewrite app_nil_r, add_log_nil. reflexivity.
  - simpl in Hexc. apply andb_true_iff in Hexc. destruct Hexc as [H1 H2].
    simpl. unfold bind. rewrite combine_file_run by exact H1.
    rewrite IH by exact H2.
    rewrite map_app, app_assoc, add_log_app. reflexivity.
Qed.

Lemma combine_dirs_run dir_paths : forall xbrl_texts w,
  loads_ok text_files dir_paths = true ->
  parse_failures_are_exceptions text_files XBRLParser_parse dir_paths
  = true ->
  for_each combine_dir dir_paths xbrl_texts w
  = (Ok (xbrl_texts
           ++ map extract_text
                (parsed_docs text_files XBRLParser_parse dir_paths))%list,
     add_log (flat_map (skip_record XBRLParser_parse)
                (sources text_files dir_paths)) w).
Proof.
  induction dir_paths as [|d dir_paths IH]; intros xbrl_texts w Hload Hexc.
  - simpl. rewrite app_nil_r, add_log_nil. reflexivity.
  - unfold loads_ok in Hload. simpl in Hload.
    apply andb_true_iff in Hload. destruct Hload as [Hd Hload].
    unfold parse_failures_are_exceptions, sources in Hexc. simpl in Hexc.
    rewrite forallb_app in Hexc. apply andb_true_iff in Hexc.
    destruct Hexc as [Hexc1 Hexc].
    unfold parsed_docs, sources. simpl.
    unfold bind at 1. unfold combine_dir at 1, Main.combine_dir, bind, lift,
      DirectoryLoader_load.
    unfold loaded in *.
    destruct (text_files d) as [files|e]; [|discriminate].
    fold combine_file. rewrite combine_files_run by exact Hexc1.
    fold combine_dir. rewrite IH by assumption.
    rewrite !flat_map_app, map_app, app_assoc, add_log_app. reflexivity.
Qed.

(** What [combine_documents] does on directories that can be listed and
    whose files parse or fail with an [Exception]. *)
Lemma combine_documents_run dir_paths w :
  loads_ok text_files dir_paths = true ->
  parse_failures_are_exceptions text_files XBRLParser_parse dir_paths
  = true ->
  combine_documents dir_paths w
  = (Ok (mkDocument
           (PyStr.join blank_line
              (map extract_text
                 (parsed_docs text_files XBRLParser_parse dir_paths)))
           []),
     add_log (flat_map (skip_record XBRLParser_parse)
                (sources text_files dir_paths)) w).
Proof.
  intros Hload Hexc.
  unfold combine_documents, Main.combine_documents, bind.
  fold combine_dir. rewrite combine_dirs_run by assumption. reflexivity.
Qed.

End Combine.

(** C2. When the directories can be listed and every file either parses or
    fails with an [Exception] (the three shapes of the [try] statement),
    [combine_documents] returns: each failing file adds exactly one log
    record and no text, at level WARNING for [XBRLParserException] and
    [IndexError] and at level ERROR for any other [Exception], and the
    files after it are still processed. *)
Theorem parse_failures_are_skipped
  (text_files : string -> Result (list (string * string)))
  (XBRLParser_parse : string -> Result Node) dir_paths w :
  loads_ok text_files dir_paths = true ->
  parse_failures_are_exceptions text_files XBRLParser_parse dir_paths
  = true ->
  exists doc w',
    combine_documents text_files XBRLParser_parse dir_paths w = (Ok doc, w') /\
    page_content doc
    = PyStr.join blank_line
        (map extract_text
           (parsed_docs text_files XBRLParser_parse dir_paths)) /\
    log w' = (log w ++ flat_map (skip_record XBRLParser_parse)
                         (sources text_files dir_paths))%list /\
    (forall source e,
        In source (sources text_files dir_paths) ->
        XBRLParser_parse source = Raise e ->
        is_Exception e = true /\
        parsed XBRLParser_parse source = [] /\
        map level (skip_record XBRLParser_parse source)
        = [if is_XBRLParserException e || is_IndexError e
           then WARNING else ERROR]).
Proof.
  intros Hload Hexc. do 2 eexists.
  split; [apply combine_documents_run; assumption|].
  split; [reflexivity|]. split; [reflexivity|].
  intros source e Hin He. split.
  { unfold parse_failures_are_exceptions in Hexc.
    rewrite forallb_forall in Hexc. specialize (Hexc source Hin).
    rewrite He in Hexc. exact Hexc. }
  unfold parsed, skip_record. rewrite He.
  split; [reflexivity|].
  destruct (is_XBRLParserException e); [reflexivity|].
  destruct (is_IndexError e); reflexivity.
Qed.

Lemma parse_failures_are_skipped_witness :
  loads_ok Demo.text_files ["A"; "B"] = true /\
  parse_failures_are_exceptions Demo.text_files
    Demo.XBRLParser_parse ["A"; "B"] = true /\
  exists doc w',
    combine_documents Demo.text_files Demo.XBRLParser_parse
      ["A"; "B"] Demo.fresh = (Ok doc, w') /\
    page_content doc
    = PyStr.join blank_line
        (map extract_text
           (parsed_docs Demo.text_files Demo.XBRLParser_parse
              ["A"; "B"])) /\
    log w' = (log Demo.fresh
                ++ flat_map (skip_record Demo.XBRLParser_parse)
                     (sources Demo.text_files ["A"; "B"]))%list /\
    (forall source e,
        In source (sources Demo.text_files ["A"; "B"]) ->
        Demo.XBRLParser_parse source = Raise e ->
        is_Exception e = true /\
        parsed Demo.XBRLParser_parse source = [] /\
        map level (skip_record Demo.XBRLParser_parse source)
        = [if is_XBRLParserException e || is_IndexError e
           then WARNING else ERROR]).
Proof.
  split; [reflexivity|]. split; [reflexivity|].
  apply (parse_failures_are_skipped Demo.text_files
           Demo.XBRLParser_parse ["A"; "B"] Demo.fresh);
    reflexivity.
Defined.

(** The three failing files of directory [A] leave two warnings and one
    error; the filing before them and the one in [B] make the text. *)
Example skipped_files_of_A_and_B :
  let run := combine_documents Demo.text_files
               Demo.XBRLParser_parse ["A"; "B"] Demo.fresh in
  fst run
  = Ok (mkDocument
          ("Revenue increased. Risks include X." ++ blank_line ++ "1,234")
          []) /\
  map (fun r => (level r, message r)) (log (snd run))
  = [(WARNING, "Skipped document [A/plain.txt]: is not a XBRL document");
     (WARNING, "Skipped document [A/broken.txt]: is not a valid XBRL document. list index out of range");
     (ERROR, "Failed to parse document [A/odd.txt]")].
Proof. split; reflexivity. Qed.

Lemma no_text_all_empty docs :
  forallb (fun xbrl_doc => extract_text xbrl_doc =? "") docs = true ->
  map extract_text docs = repeat "" (List.length docs).
Proof.
  induction docs as [|d docs IH]; simpl; intros H; [reflexivity|].
  apply andb_true_iff in H. destruct H as [Hd H].
  apply String.eqb_eq in Hd. rewrite Hd, IH by exact H. reflexivity.
Qed.

(** C3, as the code has it. When no file yields any extracted text,
    [combine_documents] returns a document without raising, and its text
    is made of the blank-line separators between the files that parsed:
    the join of as many empty strings as there are such files. The text is
    empty when at most one file parsed, in particular when none did. *)
Theorem no_text_leaves_separators_only
  (text_files : string -> Result (list (string * string)))
  (XBRLParser_parse : string -> Result Node) dir_paths w :
  loads_ok text_files dir_paths = true ->
  parse_failures_are_exceptions text_files XBRLParser_parse dir_paths
  = true ->
  no_text text_files XBRLParser_parse dir_paths = true ->
  let parsed_files :=
    List.length (parsed_docs text_files XBRLParser_parse dir_paths) in
  exists text w',
    combine_documents text_files XBRLParser_parse dir_paths w
    = (Ok (mkDocument text []), w') /\
    text = PyStr.join blank_line (repeat "" parsed_files) /\
    (parsed_files <= 1 -> text = "").
Proof.
  intros Hload Hexc Hnone parsed_files. do 2 eexists.
  split; [apply combine_documents_run; assumption|].
  unfold no_text in Hnone. rewrite (no_text_all_empty _ Hnone).
  fold parsed_files. split; [reflexivity|].
  intros Hle. destruct parsed_files as [|[|n]]; [reflexivity..|lia].
Qed.

Lemma no_text_leaves_separators_only_witness :
  loads_ok Demo.text_files ["N"] = true /\
  parse_failures_are_exceptions Demo.text_files
    Demo.XBRLParser_parse ["N"] = true /\
  no_text Demo.text_files Demo.XBRLParser_parse ["N"] = true /\
  exists text w',
    combine_documents Demo.text_files Demo.XBRLParser_parse ["N"]
      Demo.fresh = (Ok (mkDocument text []), w') /\
    text = PyStr.join blank_line
             (repeat ""
                (List.length
                   (parsed_docs Demo.text_files
                      Demo.XBRLParser_parse ["N"]))) /\
    (List.length
       (parsed_docs Demo.text_files Demo.XBRLParser_parse ["N"])
     <= 1 -> text = "").
Proof.
  split; [reflexivity|]. split; [reflexivity|]. split; [reflexivity|].
  apply (no_text_leaves_separators_only Demo.text_files
           Demo.XBRLParser_parse ["N"] Demo.fresh); reflexivity.
Defined.

(** C3, as stated, fails: directory [E] holds two filings that
    parse and contain no span, so neither yields any text, yet the
    combined text is the separator between them, not the empty string. *)
Lemma two_filings_without_text_give_blank_line :
  no_text Demo.text_files Demo.XBRLParser_parse ["E"] = true /\
  combine_documents Demo.text_files Demo.XBRLParser_parse ["E"]
    Demo.fresh
  = (Ok (mkDocument blank_line []), Demo.fresh) /\
  blank_line <> "".
Proof.
  split; [reflexivity|]. split; [reflexivity|]. discriminate.
Qed.

(** C4. The combined text is the texts of the files that parse, joined by
    a blank line, files in enumeration order and directories in input
    order; the text of a file is the text of its selected elements joined
    by single spaces. *)
Theorem combined_text_is_joined_file_texts
  (text_files : string -> Result (list (string * string)))
  (XBRLParser_parse : string -> Result Node) dir_paths w :
  loads_ok text_files dir_paths = true ->
  parse_failures_are_exceptions text_files XBRLParser_parse dir_paths
  = true ->
  fst (combine_documents text_files XBRLParser_parse dir_paths w)
  = Ok (mkDocument
          (PyStr.join blank_line
             (map (fun xbrl_doc =>
                     PyStr.join " "
                       (map get_text (find_all p_span_filter xbrl_doc)))
                  (flat_map (parsed XBRLParser_parse)
                     (flat_map (loaded text_files) dir_paths))))
          []).
Proof.
  intros Hload Hexc. rewrite combine_documents_run by assumption.
  reflexivity.
Qed.

Lemma combined_text_is_joined_file_texts_witness :
  loads_ok Demo.text_files ["A"; "B"] = true /\
  parse_failures_are_exceptions Demo.text_files
    Demo.XBRLParser_parse ["A"; "B"] = true /\
  fst (combine_documents Demo.text_files Demo.XBRLParser_parse
         ["A"; "B"] Demo.fresh)
  = Ok (mkDocument
          (PyStr.join blank_line
             (map (fun xbrl_doc =>
                     PyStr.join " "
                       (map get_text (find_all p_span_filter xbrl_doc)))
                  (flat_map (parsed Demo.XBRLParser_parse)
                     (flat_map (loaded Demo.text_files) ["A"; "B"]))))
          []).
Proof.
  split; [reflexivity|]. split; [reflexivity|].
  apply (combined_text_is_joined_file_texts Demo.text_files
           Demo.XBRLParser_parse ["A"; "B"] Demo.fresh);
    reflexivity.
Defined.

(* ===================================================================== *)
(** ** The filing retriever *)
(* ===================================================================== *)

Lemma prefix_append t rest : String.prefix t (t ++ rest) = true.
Proof.
  induction t as [|a t IH]; simpl.
  - destruct rest; reflexivity.
  - destruct (ascii_dec a a) as [_|Hne]; [exact IH | congruence].
Qed.

Lemma contains_prefix s t : String.prefix t s = true -> PyStr.contains s t = true.
Proof.
  intros H.
  replace (PyStr.contains s t)
    with (String.prefix t s
          || match s with
             | EmptyString => false
             | String _ s' => PyStr.contains s' t
             end) by (destruct s; reflexivity).
  rewrite H. reflexivity.
Qed.

Lemma contains_append before s t :
  PyStr.contains s t = true -> PyStr.contains (before ++ s) t = true.
Proof.
  intros H. induction before as [|a before IH]; simpl; [exact H|].
  rewrite IH. apply orb_true_r.
Qed.

(** [t] occurs in any string built around it. *)
Lemma contains_middle before t rest :
  PyStr.contains (before ++ t ++ rest) t = true.
Proof. apply contains_append, contains_prefix, prefix_append. Qed.

(** C7, as the code has it. Once the retrieval client has been
    constructed, when its [get] raises an [Exception],
    [download_documents] raises one [Exception] whose message is "Failed
    to fetch document for <TICKER> from Edgar database", with the failure
    of the client as its cause. The message names the upper-cased ticker;
    the document type is not part of it. *)
Theorem download_failure_is_wrapped
  (Downloader_new : string -> string -> string -> Result unit)
  (Downloader_get :
     string -> string -> string -> DocType -> TickerType -> option Z
     -> Result Z)
  ticker doc_type save_dir docs_number e w :
  Downloader_new _COMPANY _EMAIL save_dir = Ok tt ->
  Downloader_get _COMPANY _EMAIL save_dir doc_type (PyStr.upper ticker)
    docs_number = Raise e ->
  is_Exception e = true ->
  let msg := "Failed to fetch document for " ++ PyStr.upper ticker
               ++ " from Edgar database" in
  download_documents Downloader_new Downloader_get ticker doc_type save_dir
    docs_number w
  = (Raise (Exc Exception_ msg (Some e)), w) /\
  PyStr.contains msg (PyStr.upper ticker) = true.
Proof.
  intros Hnew Hget Hexc msg. split.
  - unfold download_documents, try_except, bind, lift.
    rewrite Hnew, Hget. simpl. rewrite Hexc. reflexivity.
  - apply contains_middle.
Qed.

Lemma download_failure_is_wrapped_witness :
  Demo.client _COMPANY _EMAIL "." = Ok tt /\
  Demo.failing_download _COMPANY _EMAIL "." "10-K" (PyStr.upper "aapl")
    None = Raise Demo.timeout /\
  is_Exception Demo.timeout = true /\
  let msg := "Failed to fetch document for " ++ PyStr.upper "aapl"
               ++ " from Edgar database" in
  download_documents Demo.client Demo.failing_download "aapl" "10-K" "." None
    Demo.fresh
  = (Raise (Exc Exception_ msg (Some Demo.timeout)), Demo.fresh) /\
  PyStr.contains msg (PyStr.upper "aapl") = true.
Proof.
  split; [reflexivity|]. split; [reflexivity|]. split; [reflexivity|].
  apply (download_failure_is_wrapped Demo.client Demo.failing_download
           "aapl" "10-K" "." None Demo.timeout Demo.fresh); reflexivity.
Defined.

(** C7, as stated, fails twice. For AAPL and 10-K the message of the
    wrapping error is "Failed to fetch document for AAPL from Edgar
    database", in which "10-K" does not occur. And a client that cannot
    be constructed fails before the [try] statement: its error leaves
    [download_documents] as it is, without any wrapping error. *)
Lemma download_error_does_not_name_doc_type :
  (download_documents Demo.client Demo.failing_download "aapl" "10-K" "."
     None Demo.fresh
   = (Raise (Exc Exception_
               "Failed to fetch document for AAPL from Edgar database"
               (Some Demo.timeout)),
      Demo.fresh) /\
   PyStr.contains "Failed to fetch document for AAPL from Edgar database"
     "10-K" = false) /\
  download_documents Demo.refused_client Demo.failing_download "aapl" "10-K"
    "." None Demo.fresh
  = (Raise (Exc (OtherException "ValueError") "invalid email address" None),
     Demo.fresh).
Proof. repeat split. Qed.

(* ===================================================================== *)
(** ** The chunker *)
(* ===================================================================== *)

Lemma length_substring_0 n s : String.length (substring 0 n s) <= n.
Proof.
  revert s. induction n as [|n IH]; intros [|c s]; simpl; try lia.
  specialize (IH s). lia.
Qed.

Lemma last_cut_bound sep least width text : forall pos stop,
  Chunker.last_cut sep least width pos text = Some stop ->
  least < stop <= width.
Proof.
  induction text as [|c text IH]; intros pos stop; simpl; [discriminate|].
  destruct (Chunker.last_cut sep least width (S pos) text) as [later|] eqn:E.
  - intros H. inversion H; subst. eapply IH. exact E.
  - match goal with
    | |- (if ?test then _ else _) = _ -> _ => destruct test eqn:T
    end; [|discriminate].
    intros H. inversion H; subst.
    apply andb_true_iff in T. destruct T as [T T3].
    apply andb_true_iff in T. destruct T as [_ T2].
    apply Nat.leb_le in T2. apply Nat.ltb_lt in T3. lia.
Qed.

Lemma cut_point_bound seps text :
  Chunker.chunk_overlap < Chunker.cut_point seps text <= Chunker.chunk_size.
Proof.
  induction seps as [|sep seps IH]; simpl.
  - unfold Chunker.chunk_overlap, Chunker.chunk_size. lia.
  - destruct (Chunker.last_cut sep Chunker.chunk_overlap Chunker.chunk_size
                0 text) as [stop|] eqn:E; [|exact IH].
    eapply last_cut_bound. exact E.
Qed.

(** No chunk of the modelled splitter is longer than [chunk_size]. *)
Lemma chunks_are_bounded fuel : forall text,
  Forall (fun chunk => String.length chunk <= Chunker.chunk_size)
         (Chunker.split_window fuel text).
Proof.
  induction fuel as [|fuel IH]; intros text;
    cbn [Chunker.split_window]; [constructor|].
  destruct (String.length text =? 0)%nat; [constructor|].
  destruct (Nat.leb_spec (String.length text) Chunker.chunk_size)
    as [Hle|_]; [constructor; [exact Hle | constructor]|].
  constructor; [|apply IH].
  pose proof (cut_point_bound Chunker.separators text) as [_ Hb].
  pose proof (length_substring_0
                (Chunker.cut_point Chunker.separators text) text).
  lia.
Qed.

(** C6, as amended. A text that is not empty and shorter than 1200
    characters is split into exactly one chunk, equal to the text and
    carrying the metadata of its document. *)
Theorem short_text_is_one_chunk text meta :
  0 < String.length text ->
  String.length text < Chunker.chunk_size ->
  split_documents [mkDocument text meta] = [mkDocument text meta].
Proof.
  intros Hpos Hshort.
  unfold split_documents, Chunker.TextSplitter_split_documents,
    Chunker.split_text.
  cbn [flat_map page_content metadata Chunker.split_window].
  destruct (Nat.eqb_spec (String.length text) 0) as [Hz|_]; [lia|].
  destruct (Nat.leb_spec (String.length text) Chunker.chunk_size)
    as [_|Hgt]; [reflexivity | lia].
Qed.

Lemma short_text_is_one_chunk_witness :
  0 < String.length "Revenue increased. Risks include X." /\
  String.length "Revenue increased. Risks include X." < Chunker.chunk_size /\
  split_documents [mkDocument "Revenue increased. Risks include X." []]
  = [mkDocument "Revenue increased. Risks include X." []].
Proof.
  split; [simpl; lia|].
  split; [unfold Chunker.chunk_size; simpl; lia|].
  apply (short_text_is_one_chunk "Revenue increased. Risks include X." []);
    [simpl; lia | unfold Chunker.chunk_size; simpl; lia].
Defined.

(** C6, as stated, fails on the empty text: it is shorter than
    1200 characters and is split into no chunk at all. *)
Lemma empty_text_has_no_chunk :
  String.length "" < Chunker.chunk_size /\
  split_documents [mkDocument "" []] = [].
Proof. split; [unfold Chunker.chunk_size; simpl; lia | reflexivity]. Qed.

(* ===================================================================== *)
(** ** The pipeline and [main] *)
(* ===================================================================== *)

Import MainSpec.

Lemma same_handles_refl w : same_handles w w.
Proof. repeat split. Qed.

Lemma same_handles_trans w1 w2 w3 :
  same_handles w1 w2 -> same_handles w2 w3 -> same_handles w1 w3.
Proof.
  unfold same_handles. intros [H1 [H2 H3]] [H4 [H5 H6]].
  repeat split; congruence.
Qed.

Lemma keeps_ret {A} (a : A) : keeps_handles (ret a).
Proof. intros w. apply same_handles_refl. Qed.

Lemma keeps_raise {A} e : keeps_handles (@raise A e).
Proof. intros w. apply same_handles_refl. Qed.

Lemma keeps_lift {A} (r : Result A) : keeps_handles (lift r).
Proof. intros w. apply same_handles_refl. Qed.

Lemma keeps_get_world : keeps_handles get_world.
Proof. intros w. apply same_handles_refl. Qed.

Lemma keeps_emit r : keeps_handles (emit r).
Proof. intros w. repeat split. Qed.

Lemma keeps_set_table t : keeps_handles (set_table t).
Proof. intros w. repeat split. Qed.

Lemma keeps_bind {A B} (m : M A) (k : A -> M B) :
  keeps_handles m -> (forall a, keeps_handles (k a)) ->
  keeps_handles (bind m k).
Proof.
  intros Hm Hk w. unfold bind. specialize (Hm w).
  destruct (m w) as [[a|e] w1]; simpl in *; [|exact Hm].
  eapply same_handles_trans; [exact Hm | apply Hk].
Qed.

Lemma keeps_dispatch {A} (handlers : list ((exn -> bool) * (exn -> M A))) e :
  Forall (fun h => forall e', keeps_handles (snd h e')) handlers ->
  keeps_handles (dispatch handlers e).
Proof.
  induction 1 as [|[test handler] handlers Hh Hrest IH]; simpl.
  - apply keeps_raise.
  - destruct (test e); [apply Hh | exact IH].
Qed.

Lemma keeps_try_except {A} (body : M A) handlers :
  keeps_handles body ->
  Forall (fun h => forall e, keeps_handles (snd h e)) handlers ->
  keeps_handles (try_except body handlers).
Proof.
  intros Hb Hh w. unfold try_except. specialize (Hb w).
  destruct (body w) as [[a|e] w1]; simpl in *; [exact Hb|].
  eapply same_handles_trans; [exact Hb | apply keeps_dispatch, Hh].
Qed.

Lemma keeps_for_each {A S} (body : A -> S -> M S) xs :
  (forall x s, keeps_handles (body x s)) ->
  forall s, keeps_handles (for_each body xs s).
Proof.
  intros Hb. induction xs as [|x xs IH]; intros s; simpl.
  - apply keeps_ret.
  - apply keeps_bind; [apply Hb | exact IH].
Qed.

(** Goals [keeps_handles m] for a program [m] written with the
    combinators: follow its structure. *)
Create HintDb keeps.
#[local] Hint Resolve keeps_ret keeps_raise keeps_lift keeps_get_world
  keeps_emit keeps_set_table : keeps.

Ltac keeps :=
  repeat first
    [ solve [auto 1 with keeps]
    | apply keeps_bind; [|intros ?]
    | apply keeps_try_except
    | apply keeps_for_each; intros ? ?
    | apply Forall_cons; [intros ?; cbn [snd]|]
    | apply Forall_nil
    | match goal with
      | |- keeps_handles (match ?x with _ => _ end) => destruct x
      end ].

Lemma keeps_cursor_ready : keeps_handles cursor_ready.
Proof. unfold cursor_ready. keeps. Qed.

Lemma keeps_commit : keeps_handles commit.
Proof. unfold commit. keeps. Qed.

#[local] Hint Resolve keeps_cursor_ready keeps_commit : keeps.

Lemma keeps_save_info ticker doc_type save_dir :
  keeps_handles (save_info ticker doc_type save_dir).
Proof. unfold save_info. keeps. Qed.

Lemma keeps_get_info ticker doc_type :
  keeps_handles (get_info ticker doc_type).
Proof. unfold get_info. keeps. Qed.

#[local] Hint Resolve keeps_save_info keeps_get_info : keeps.

Section Pipeline.

Variable Downloader_new : string -> string -> string -> Result unit.
Variable Downloader_get :
  string -> string -> string -> DocType -> TickerType -> option Z
  -> Result Z.
Variable text_files : string -> Result (list (string * string)).
Variable XBRLParser_parse : string -> Result Node.
Variable Qdrant_from_documents : list Document -> string -> Result unit.

Lemma keeps_download_documents ticker doc_type save_dir docs_number :
  keeps_handles
    (download_documents Downloader_new Downloader_get ticker doc_type save_dir
       docs_number).
Proof. unfold download_documents. keeps. Qed.

Lemma keeps_combine_documents dir_paths :
  keeps_handles (combine_documents text_files XBRLParser_parse dir_paths).
Proof.
  unfold combine_documents, combine_dir, combine_file, parse_or_skip,
    log_warning, log_exception.
  keeps.
Qed.

(** The pipeline never touches the store globals or a connection. *)
Lemma keeps_pipeline ticker doc_type save_dir :
  keeps_handles
    (pipeline Downloader_new Downloader_get text_files XBRLParser_parse
       Qdrant_from_documents ticker doc_type save_dir).
Proof.
  unfold pipeline, vectorize_and_save_to_store, log_info.
  repeat first
    [ apply keeps_download_documents | apply keeps_combine_documents
    | solve [auto 1 with keeps]
    | apply keeps_bind; [|intros ?] ].
Qed.

End Pipeline.

Lemma is_live_new c w cu sc lv nx tb ck lg out :
  w = mkWorld sc cu (c :: lv) nx tb ck lg out -> is_live c w = true.
Proof.
  intros ->. unfold is_live. simpl. rewrite Nat.eqb_refl. reflexivity.
Qed.

Lemma not_live_after_close c lv :
  existsb (fun c' => (c' =? c)%nat)
    (filter (fun c' => negb (c' =? c)%nat) lv) = false.
Proof.
  induction lv as [|c' lv IH]; simpl; [reflexivity|].
  destruct (c' =? c)%nat eqn:E; simpl; [exact IH|].
  rewrite E. exact IH.
Qed.

(** [init_store] returns from any state, with both globals on a fresh open
    connection. *)
Lemma init_store_opens w0 :
  exists c w1,
    init_store w0 = (Ok tt, w1) /\
    store_connection w1 = Some c /\ cursor w1 = Some c /\
    is_live c w1 = true.
Proof.
  destruct w0 as [[c0|] cu lv nx [rows|] ck lg out];
    exists nx; eexists;
    unfold init_store, open_store_conn, close_store_conn,
      create_downloaded_info_table, cursor_ready, commit, bind, get_world,
      sqlite3_connect, conn_close, set_connection, set_cursor, set_table,
      ret, raise, is_live; simpl; rewrite Nat.eqb_refl; simpl;
    rewrite ?Nat.eqb_refl; simpl;
    (split; [reflexivity|]); simpl; rewrite ?Nat.eqb_refl; auto.
Qed.

(** The [finally] block on a store whose connection global is set. *)
Lemma teardown_closes c w :
  store_connection w = Some c ->
  exists w',
    (close_store_conn ;;; log_info Main.log_name "Exit") w = (Ok tt, w') /\
    store_connection w' = None /\
    is_live c w' = false /\
    table w' = table w /\
    log w' = (log w ++ [mkLogRecord "MAIN" INFO "Exit" None])%list.
Proof.
  intros Hc. destruct w as [sc cu lv nx tb ck lg out]. simpl in Hc. subst sc.
  eexists. split; [reflexivity|]. simpl.
  repeat split. apply not_live_after_close.
Qed.

(** C9. [main] opens the store and then, however the pipeline ends, runs
    the teardown before it returns or the process exits: the connection
    that [init_store] opened is closed, the connection global is [None],
    and "Exit" is the last log record. A pipeline that returns makes
    [main] return; an [Exception] is logged at level ERROR with the ticker
    and the document type and is not raised again, so [main] returns; a
    [KeyboardInterrupt] ends in [exit(0)], raised after the teardown. *)
Theorem main_always_closes_store
  (Downloader_new : string -> string -> string -> Result unit)
  (Downloader_get :
     string -> string -> string -> DocType -> TickerType -> option Z
     -> Result Z)
  (text_files : string -> Result (list (string * string)))
  (XBRLParser_parse : string -> Result Node)
  (Qdrant_from_documents : list Document -> string -> Result unit)
  (args : Args) (w0 : World) :
  let ticker := PyStr.upper args.(arg_ticker) in
  let doc_type := PyStr.upper args.(arg_doctype) in
  let w1 := snd (init_store w0) in
  let run := pipeline Downloader_new Downloader_get text_files XBRLParser_parse
               Qdrant_from_documents ticker doc_type args.(arg_save_dir)
               w1 in
  let final := main Downloader_new Downloader_get text_files XBRLParser_parse
                 Qdrant_from_documents args w0 in
  fst (init_store w0) = Ok tt /\
  exists c,
    store_connection w1 = Some c /\
    is_live c w1 = true /\
    fst final = main_outcome (fst run) /\
    store_connection (snd final) = None /\
    is_live c (snd final) = false /\
    table (snd final) = table (snd run) /\
    log (snd final)
    = (log (snd run) ++ handler_records ticker doc_type (fst run)
         ++ [mkLogRecord "MAIN" INFO "Exit" None])%list.
Proof.
  intros ticker doc_type w1 run final.
  destruct (init_store_opens w0) as [c [w1' [Hinit [Hsc [_ Hlive]]]]].
  assert (Hw1 : w1 = w1') by (unfold w1; rewrite Hinit; reflexivity).
  rewrite Hinit. split; [reflexivity|]. exists c. rewrite Hw1.
  split; [exact Hsc|]. split; [exact Hlive|].
  assert (Hkeep : same_handles w1' (snd run)).
  { unfold run. rewrite Hw1. apply keeps_pipeline. }
  destruct Hkeep as [Hsc2 _]. rewrite Hsc in Hsc2.
  assert (Hfinal :
    final
    = try_finally
        (try_except
           (pipeline Downloader_new Downloader_get text_files XBRLParser_parse
              Qdrant_from_documents ticker doc_type (arg_save_dir args))
           [(is_KeyboardInterrupt, fun _ => py_exit 0);
            (is_Exception, fun e =>
               log_exception log_name
                 ("Problem executing the pipeline for " ++ ticker ++ " "
                    ++ doc_type) e)])
        (close_store_conn ;;; log_info log_name "Exit") w1').
  { unfold final, main, bind at 1. rewrite Hinit. reflexivity. }
  clearbody final. subst final.
  unfold try_finally, try_except.
  unfold run in *. rewrite Hw1 in *. clear Hw1 run w1.
  destruct (pipeline Downloader_new Downloader_get text_files XBRLParser_parse
              Qdrant_from_documents ticker doc_type (arg_save_dir args) w1')
    as [[[]|e] w2]; simpl in Hsc2; simpl fst; simpl snd.
  - destruct (teardown_closes c w2 Hsc2) as [w3 [Hrun [H1 [H2 [H3 H4]]]]].
    rewrite Hrun. simpl. auto.
  - unfold handler_records, main_outcome. simpl dispatch.
    destruct (is_KeyboardInterrupt e).
    + unfold py_exit, raise.
      destruct (teardown_closes c w2 Hsc2) as [w3 [Hrun [H1 [H2 [H3 H4]]]]].
      rewrite Hrun. simpl. auto.
    + destruct (is_Exception e).
      * unfold log_exception, emit.
        match goal with
        | |- context [(close_store_conn ;;; log_info log_name "Exit") ?w] =>
            destruct (teardown_closes c w Hsc2)
              as [w3 [Hrun [H1 [H2 [H3 H4]]]]]
        end.
        rewrite Hrun. simpl. simpl in H3, H4. rewrite H4, <- app_assoc.
        auto.
      * unfold raise.
        destruct (teardown_closes c w2 Hsc2)
          as [w3 [Hrun [H1 [H2 [H3 H4]]]]].
        rewrite Hrun. simpl. auto.
Qed.

(** The three ways a run can end, on concrete collaborators. *)
Example main_completes :
  let final := main Demo.client Demo.working_download Demo.text_files
                 Demo.XBRLParser_parse Demo.Qdrant_from_documents
                 Demo.aapl Demo.fresh in
  fst final = Ok tt /\
  store_connection (snd final) = None /\
  live (snd final) = [] /\
  map message (log (snd final))
  = ["Downloaded 10-K documents for AAPL";
     "Saved 10-K documents for AAPL";
     "Combined 10-K documents for AAPL";
     "Split texts for AAPL 10-K into 1 chunks";
     "Embedding and Saving 10-K documents for AAPL to Qdrant...";
     "Uploaded AAPL 10-K to Qdrant to aapl_10-k collection";
     "Exit"].
Proof. repeat split. Qed.

Example main_logs_a_failed_download :
  let final := main Demo.client Demo.failing_download Demo.text_files
                 Demo.XBRLParser_parse Demo.Qdrant_from_documents
                 Demo.aapl Demo.fresh in
  fst final = Ok tt /\
  store_connection (snd final) = None /\
  live (snd final) = [] /\
  map (fun r => (level r, message r)) (log (snd final))
  = [(ERROR, "Problem executing the pipeline for AAPL 10-K");
     (INFO, "Exit")].
Proof. repeat split. Qed.

Example main_exits_on_interrupt :
  let final := main Demo.client Demo.interrupted_download Demo.text_files
                 Demo.XBRLParser_parse Demo.Qdrant_from_documents
                 Demo.aapl Demo.fresh in
  fst final = Raise (Exc (SystemExit 0) "" None) /\
  store_connection (snd final) = None /\
  live (snd final) = [] /\
  map message (log (snd final)) = ["Exit"].
Proof. repeat split. Qed.

(* ===================================================================== *)
(** ** More about the metadata store *)
(* ===================================================================== *)

Import Tuples.

Lemma store_open_inv w :
  store_open w = true ->
  exists c rows,
    store_connection w = Some c /\ cursor w = Some c /\
    is_live c w = true /\ table w = Some rows.
Proof.
  unfold store_open.
  destruct (store_connection w) as [c|]; [|discriminate].
  destruct (cursor w) as [c'|]; [|discriminate].
  destruct (table w) as [rows|]; [|discriminate].
  intros H. apply andb_true_iff in H. destruct H as [Hc Hl].
  apply Nat.eqb_eq in Hc. subst c'. exists c, rows. auto.
Qed.

(** [get_info] on an open store: the selected rows, and the same world. *)
Lemma get_info_open ticker doc_type w :
  store_open w = true ->
  exists rows,
    table w = Some rows /\
    get_info ticker doc_type w
    = (Ok (map row_tuple
             (match doc_type with
              | None =>
                  index_order
                    (filter (fun r : Row => row_ticker r =? ticker) rows)
              | Some d => filter (same_key ticker d) rows
              end)), w).
Proof.
  intros Hopen.
  destruct (store_open_inv w Hopen) as [c [rows [Hsc [Hcu [Hl Ht]]]]].
  exists rows. split; [exact Ht|].
  unfold get_info, cursor_ready, bind, get_world, ret. simpl.
  rewrite Hcu, Hl, Ht. destruct doc_type; reflexivity.
Qed.

Lemma index_insert_In r x rows :
  In x (index_insert r rows) <-> x = r \/ In x rows.
Proof.
  induction rows as [|r' rows IH]; simpl; [intuition congruence|].
  destruct (row_doc_type r <=? row_doc_type r')%string; simpl;
    [intuition congruence|].
  rewrite IH. intuition congruence.
Qed.

Lemma index_order_In x rows : In x (index_order rows) <-> In x rows.
Proof.
  induction rows as [|r rows IH]; simpl; [tauto|].
  rewrite index_insert_In, IH. intuition congruence.
Qed.

Lemma leb_refl s : (s <=? s)%string = true.
Proof. destruct (String.leb_total s s); assumption. Qed.

(** The index order does not move rows of one [doc_type] past each
    other. *)
Lemma filter_doc_type_index_insert d r rows :
  filter (fun r' => row_doc_type r' =? d) (index_insert r rows)
  = filter (fun r' => row_doc_type r' =? d) (r :: rows).
Proof.
  induction rows as [|r' rows IH]; [reflexivity|].
  cbn [index_insert].
  destruct (row_doc_type r <=? row_doc_type r')%string eqn:Hle;
    [reflexivity|].
  cbn [filter] in *. rewrite IH.
  destruct (row_doc_type r =? d) eqn:Hr; [|reflexivity].
  destruct (row_doc_type r' =? d) eqn:Hr'; [|reflexivity].
  apply String.eqb_eq in Hr, Hr'. rewrite Hr, Hr', leb_refl in Hle.
  discriminate.
Qed.

Lemma filter_doc_type_index_order d rows :
  filter (fun r => row_doc_type r =? d) (index_order rows)
  = filter (fun r => row_doc_type r =? d) rows.
Proof.
  induction rows as [|r rows IH]; [reflexivity|].
  cbn [index_order fold_right]. rewrite filter_doc_type_index_insert.
  cbn [filter]. fold (index_order rows). rewrite IH. reflexivity.
Qed.

Lemma index_insert_sorted r rows :
  Sorted (fun a b => (row_doc_type a <=? row_doc_type b)%string = true) rows ->
  Sorted (fun a b => (row_doc_type a <=? row_doc_type b)%string = true)
         (index_insert r rows).
Proof.
  induction 1 as [|r' rows Hs IH Hhd]; simpl.
  - repeat constructor.
  - destruct (row_doc_type r <=? row_doc_type r')%string eqn:Hle.
    + constructor; [constructor; assumption|]. constructor. exact Hle.
    + constructor; [exact IH|].
      assert (Hge : (row_doc_type r' <=? row_doc_type r)%string = true)
        by (destruct (String.leb_total (row_doc_type r) (row_doc_type r'));
            congruence).
      destruct rows as [|r'' rows]; simpl; [constructor; exact Hge|].
      destruct (row_doc_type r <=? row_doc_type r'')%string;
        constructor; [exact Hge|].
      inversion Hhd. assumption.
Qed.

Lemma index_order_sorted rows :
  Sorted (fun a b => (row_doc_type a <=? row_doc_type b)%string = true)
         (index_order rows).
Proof.
  induction rows as [|r rows IH]; simpl; [constructor|].
  apply index_insert_sorted. exact IH.
Qed.

Lemma Sorted_map {A B} (f : A -> B) (R : B -> B -> Prop) l :
  Sorted (fun a b => R (f a) (f b)) l -> Sorted R (map f l).
Proof.
  induction 1 as [|a l Hs IH Hhd]; simpl; constructor; [exact IH|].
  destruct Hhd; simpl; constructor. assumption.
Qed.

(** [init_store] from any state. *)
Lemma init_store_run w :
  exists w',
    init_store w = (Ok tt, w') /\
    store_open w' = true /\
    table w' = Some (match table w with Some rows => rows | None => [] end) /\
    log w' = log w /\
    stdout w' = stdout w.
Proof.
  destruct w as [[c0|] cu lv nx [rows|] ck lg out];
    eexists;
    unfold init_store, open_store_conn, close_store_conn,
      create_downloaded_info_table, cursor_ready, commit, bind, get_world,
      sqlite3_connect, conn_close, set_connection, set_cursor, set_table,
      ret, raise, is_live, store_open; simpl; rewrite Nat.eqb_refl; simpl;
    rewrite ?Nat.eqb_refl; simpl;
    (split; [reflexivity|]); simpl; rewrite ?Nat.eqb_refl; simpl;
    repeat split; eapply is_live_new; reflexivity.
Qed.

(** X1. [init_store] returns from any state and leaves an open store; the
    rows of an existing table are kept ([CREATE TABLE IF NOT EXISTS]), a
    missing table is created empty, and nothing is logged or printed. *)
Theorem init_store_keeps_rows w :
  exists w',
    init_store w = (Ok tt, w') /\
    store_open w' = true /\
    table w' = Some (match table w with Some rows => rows | None => [] end) /\
    log w' = log w /\
    stdout w' = stdout w.
Proof. exact (init_store_run w). Qed.

(** X2. When the store is already open, [init_store] closes the
    connection it finds before it opens a new one: the old connection is
    no longer live, the globals point to the new one, and no other
    connection is touched. *)
Theorem reopening_closes_previous_connection w c0 :
  store_connection w = Some c0 ->
  c0 <> next_conn w ->
  let w' := snd (init_store w) in
  is_live c0 w' = false /\
  store_connection w' = Some (next_conn w) /\
  cursor w' = Some (next_conn w) /\
  live w' = next_conn w :: filter (fun c => negb (c =? c0)%nat) (live w).
Proof.
  destruct w as [sc cu lv nx [rows|] ck lg out]; simpl;
    intros -> Hne;
    unfold init_store, open_store_conn, close_store_conn,
      create_downloaded_info_table, cursor_ready, commit, bind, get_world,
      sqlite3_connect, conn_close, set_connection, set_cursor, set_table,
      ret, raise, is_live; simpl; rewrite Nat.eqb_refl; simpl;
    rewrite ?Nat.eqb_refl; simpl;
    (split; [|auto]);
    (destruct (Nat.eqb_spec nx c0) as [Heq|_]; [congruence|]);
    simpl; apply not_live_after_close.
Qed.

Lemma reopening_closes_previous_connection_witness :
  store_connection Demo.started = Some 0 /\
  0 <> next_conn Demo.started /\
  let w' := snd (init_store Demo.started) in
  is_live 0 w' = false /\
  store_connection w' = Some (next_conn Demo.started) /\
  cursor w' = Some (next_conn Demo.started) /\
  live w' = next_conn Demo.started
            :: filter (fun c => negb (c =? 0)%nat) (live Demo.started).
Proof.
  split; [reflexivity|]. split; [discriminate|].
  apply (reopening_closes_previous_connection Demo.started 0);
    [reflexivity | discriminate].
Defined.

(** X3. After [close_store_conn] the global [_cursor] still holds the
    cursor of the closed connection: [save_info] and [get_info] raise
    sqlite3's ProgrammingError and change nothing, so no record can be
    written or read until the store is opened again. *)
Theorem closed_store_rejects_save_and_get ticker doc_type dir_path query w :
  store_open w = true ->
  exists w',
    close_store_conn w = (Ok tt, w') /\
    table w' = table w /\
    save_info ticker doc_type dir_path w' = (Raise closed_database, w') /\
    get_info ticker query w' = (Raise closed_database, w').
Proof.
  intros Hopen.
  destruct (store_open_inv w Hopen) as [c [rows [Hsc [Hcu [Hl Ht]]]]].
  destruct w as [sc cu lv nx tb ck lg out]. simpl in *. subst sc cu tb.
  eexists. split; [reflexivity|]. split; [reflexivity|].
  unfold save_info, get_info, cursor_ready, bind, get_world, is_live; simpl.
  rewrite not_live_after_close. split; reflexivity.
Qed.

Lemma closed_store_rejects_save_and_get_witness :
  store_open Demo.started = true /\
  exists w',
    close_store_conn Demo.started = (Ok tt, w') /\
    table w' = table Demo.started /\
    save_info "AAPL" "10-K" "/p1" w' = (Raise closed_database, w') /\
    get_info "AAPL" (Some "10-K") w' = (Raise closed_database, w').
Proof.
  split; [reflexivity|].
  apply (closed_store_rejects_save_and_get "AAPL" "10-K" "/p1"
           (Some "10-K") Demo.started).
  reflexivity.
Defined.

(** X4. While [_cursor] is [None] (the store was never opened in this
    process) [save_info] and [get_info] raise AttributeError from
    [_cursor.execute] and leave the world as it is. *)
Theorem unopened_store_raises_attribute_error
  ticker doc_type dir_path query w :
  cursor w = None ->
  save_info ticker doc_type dir_path w
  = (Raise (Exc AttributeError
              "'NoneType' object has no attribute 'execute'" None), w) /\
  get_info ticker query w
  = (Raise (Exc AttributeError
              "'NoneType' object has no attribute 'execute'" None), w).
Proof.
  intros Hcu.
  unfold save_info, get_info, cursor_ready, bind, get_world. simpl.
  rewrite Hcu. split; reflexivity.
Qed.

Lemma unopened_store_raises_attribute_error_witness :
  cursor Demo.fresh = None /\
  save_info "AAPL" "10-K" "/p1" Demo.fresh
  = (Raise (Exc AttributeError
              "'NoneType' object has no attribute 'execute'" None),
     Demo.fresh) /\
  get_info "AAPL" None Demo.fresh
  = (Raise (Exc AttributeError
              "'NoneType' object has no attribute 'execute'" None),
     Demo.fresh).
Proof.
  split; [reflexivity|].
  apply (unopened_store_raises_attribute_error "AAPL" "10-K" "/p1" None
           Demo.fresh).
  reflexivity.
Defined.

(** X5. On an open store [get_info] never fails and changes nothing.
    Every tuple it returns has the five columns of the table and carries
    the requested ticker in column 1; with a document type it carries
    that type in column 2, and the result is empty when the pair has no
    record. *)
Theorem get_info_reads_only ticker query w :
  store_open w = true ->
  exists rows,
    get_info ticker query w = (Ok rows, w) /\
    Forall (fun row => List.length row = 5
                       /\ column_is 1 ticker row = true) rows /\
    (forall d, query = Some d ->
       Forall (fun row => column_is 2 d row = true) rows /\
       (records ticker d w = [] -> rows = [])).
Proof.
  intros Hopen.
  destruct (get_info_open ticker query w Hopen) as [rows [Ht Hget]].
  eexists. split; [exact Hget|]. split.
  - apply Forall_forall. intros row Hin. apply in_map_iff in Hin.
    destruct Hin as [r [<- Hr]]. split; [reflexivity|].
    unfold column_is. simpl. destruct query as [d|].
    + apply filter_In in Hr. destruct Hr as [_ Hsel].
      unfold same_key in Hsel. apply andb_true_iff in Hsel. tauto.
    + apply index_order_In, filter_In in Hr. tauto.
  - intros d ->. split.
    + apply Forall_forall. intros row Hin. apply in_map_iff in Hin.
      destruct Hin as [r [<- Hr]]. apply filter_In in Hr.
      destruct Hr as [_ Hsel]. unfold column_is. simpl.
      unfold same_key in Hsel. apply andb_true_iff in Hsel. tauto.
    + unfold records. rewrite Ht. intros ->. reflexivity.
Qed.

Lemma get_info_reads_only_witness :
  store_open Demo.started = true /\
  exists rows,
    get_info "AAPL" (Some "10-K") Demo.started = (Ok rows, Demo.started) /\
    Forall (fun row => List.length row = 5
                       /\ column_is 1 "AAPL" row = true) rows /\
    (forall d, Some "10-K" = Some d ->
       Forall (fun row => column_is 2 d row = true) rows /\
       (records "AAPL" d Demo.started = [] -> rows = [])).
Proof.
  split; [reflexivity|].
  apply (get_info_reads_only "AAPL" (Some "10-K") Demo.started).
  reflexivity.
Defined.

Lemma filter_key_splits ticker d rows :
  filter (same_key ticker d) rows
  = filter (fun r => row_doc_type r =? d)
      (filter (fun r => row_ticker r =? ticker) rows).
Proof.
  induction rows as [|r rows IH]; simpl; [reflexivity|].
  unfold same_key at 1. destruct (row_ticker r =? ticker); simpl.
  - destruct (row_doc_type r =? d); [f_equal|]; exact IH.
  - exact IH.
Qed.

(** X6. On an open store the rows [get_info] returns for a ticker alone
    ([doc_type=None]) come in the order of the index, by document type
    (column 2), whatever the order in which they were saved; the rows it
    returns for the ticker and a document type are exactly those among
    them whose column 2 is that document type. *)
Theorem get_info_by_type_refines_by_ticker ticker d w :
  store_open w = true ->
  exists all_rows,
    get_info ticker None w = (Ok all_rows, w) /\
    ordered_by_column 2 all_rows /\
    get_info ticker (Some d) w = (Ok (filter (column_is 2 d) all_rows), w).
Proof.
  intros Hopen.
  destruct (get_info_open ticker None w Hopen) as [rows [Ht Hall]].
  destruct (get_info_open ticker (Some d) w Hopen) as [rows' [Ht' Hone]].
  rewrite Ht in Ht'. inversion Ht'; subst rows'.
  eexists. split; [exact Hall|]. split.
  - unfold ordered_by_column. apply Sorted_map.
    exact (index_order_sorted
             (filter (fun r : Row => row_ticker r =? ticker) rows)).
  - rewrite Hone. f_equal. f_equal.
    rewrite filter_key_splits, filter_map_swap.
    change (fun a : Row => column_is 2 d (row_tuple a))
      with (fun a : Row => row_doc_type a =? d).
    rewrite filter_doc_type_index_order. reflexivity.
Qed.

Lemma get_info_by_type_refines_by_ticker_witness :
  let w := snd (save_all [("AAPL", "10-Q", "/q"); ("MSFT", "10-K", "/m");
                          ("AAPL", "10-K", "/k")] Demo.started) in
  store_open w = true /\
  exists all_rows,
    get_info "AAPL" None w = (Ok all_rows, w) /\
    ordered_by_column 2 all_rows /\
    get_info "AAPL" (Some "10-Q") w
    = (Ok (filter (column_is 2 "10-Q") all_rows), w).
Proof.
  intros w. split; [reflexivity|].
  apply (get_info_by_type_refines_by_ticker "AAPL" "10-Q" w).
  reflexivity.
Defined.

(** A ticker whose quarterly filing was saved before its annual one: the
    query by ticker returns the annual record first although its [id] is
    the larger one; the query by pair returns the one record asked for. *)
Example two_types_of_one_ticker :
  let w := snd (save_all [("AAPL", "10-Q", "/q"); ("MSFT", "10-K", "/m");
                          ("AAPL", "10-K", "/k")] Demo.started) in
  fst (get_info "AAPL" None w)
  = Ok [[SqlInt 3; SqlText "AAPL"; SqlText "10-K"; SqlText "/k";
         SqlText "2024-01-01 00:00:00"];
        [SqlInt 1; SqlText "AAPL"; SqlText "10-Q"; SqlText "/q";
         SqlText "2024-01-01 00:00:00"]] /\
  fst (get_info "AAPL" (Some "10-Q") w)
  = Ok [[SqlInt 1; SqlText "AAPL"; SqlText "10-Q"; SqlText "/q";
         SqlText "2024-01-01 00:00:00"]].
Proof. split; reflexivity. Qed.

(** X7. A record survives closing and re-opening the store: after
    [save_info], [close_store_conn] and [init_store], [get_info] for the
    pair returns exactly the saved record. *)
Theorem record_survives_reopening ticker doc_type dir_path w :
  store_open w = true ->
  exists w' id updated_at,
    (save_info ticker doc_type dir_path ;;; close_store_conn ;;; init_store)
      w = (Ok tt, w') /\
    get_info ticker (Some doc_type) w'
    = (Ok [[SqlInt id; SqlText ticker; SqlText doc_type; SqlText dir_path;
            SqlText updated_at]], w').
Proof.
  intros Hopen.
  destruct (save_info_open ticker doc_type dir_path w Hopen)
    as [rows [Ht Hsave]].
  destruct (store_open_inv w Hopen) as [c [rows' [Hsc [Hcu [Hl Ht']]]]].
  set (w1 := mkWorld (store_connection w) (cursor w) (live w) (next_conn w)
               (Some (insert_row (clock w) ticker doc_type dir_path rows))
               (clock w) (log w) (stdout w)) in *.
  assert (Hclose : exists w2, close_store_conn w1 = (Ok tt, w2)
                              /\ table w2 = table w1).
  { unfold w1. rewrite Hsc. eexists. split; reflexivity. }
  destruct Hclose as [w2 [Hclose Ht2]].
  destruct (init_store_run w2) as [w3 [Hinit [Hopen3 [Ht3 _]]]].
  exists w3, (new_rowid rows), (clock w).
  split.
  - unfold bind. rewrite Hsave, Hclose. exact Hinit.
  - destruct (get_info_open ticker (Some doc_type) w3 Hopen3)
      as [rows3 [Ht3' Hget]].
    rewrite Hget. rewrite Ht3, Ht2 in Ht3'. unfold w1 in Ht3'.
    simpl in Ht3'. inversion Ht3'; subst rows3.
    rewrite filter_same_key_insert. reflexivity.
Qed.

Lemma record_survives_reopening_witness :
  store_open Demo.started = true /\
  exists w' id updated_at,
    (save_info "AAPL" "10-K" "/p1" ;;; close_store_conn ;;; init_store)
      Demo.started = (Ok tt, w') /\
    get_info "AAPL" (Some "10-K") w'
    = (Ok [[SqlInt id; SqlText "AAPL"; SqlText "10-K"; SqlText "/p1";
            SqlText updated_at]], w').
Proof.
  split; [reflexivity|].
  apply (record_survives_reopening "AAPL" "10-K" "/p1" Demo.started).
  reflexivity.
Defined.

Lemma new_rowid_above rows :
  Forall (fun r => (row_id r < new_rowid rows)%Z) rows.
Proof.
  unfold new_rowid. induction rows as [|r rows IH]; simpl; constructor.
  - lia.
  - eapply Forall_impl; [|exact IH]. simpl. intros r' H. lia.
Qed.

Lemma ids_increasing_filter f rows :
  ids_increasing rows -> ids_increasing (filter f rows).
Proof.
  unfold ids_increasing. induction 1 as [|r rows Hs IH Hall]; simpl.
  - constructor.
  - destruct (f r); [|exact IH]. constructor; [exact IH|].
    apply Forall_forall. intros r' Hin. apply filter_In in Hin.
    rewrite Forall_forall in Hall. apply Hall. tauto.
Qed.

Lemma ids_increasing_snoc rows r :
  ids_increasing rows ->
  Forall (fun r' => (row_id r' < row_id r)%Z) rows ->
  ids_increasing (rows ++ [r]).
Proof.
  unfold ids_increasing. induction 1 as [|r0 rows Hs IH Hall]; simpl;
    intros Hbelow.
  - repeat constructor.
  - inversion Hbelow; subst. constructor; [apply IH; assumption|].
    apply Forall_app. split; [exact Hall|]. repeat constructor. assumption.
Qed.

Lemma insert_row_ids_increasing now ticker doc_type dir_path rows :
  ids_increasing rows ->
  ids_increasing (insert_row now ticker doc_type dir_path rows).
Proof.
  intros H. unfold insert_row. apply ids_increasing_snoc.
  - apply ids_increasing_filter. exact H.
  - simpl. apply Forall_forall. intros r Hin. apply filter_In in Hin.
    pose proof (new_rowid_above rows) as Hab. rewrite Forall_forall in Hab.
    apply Hab. tauto.
Qed.

Lemma ids_increasing_NoDup rows :
  ids_increasing rows -> NoDup (map row_id rows).
Proof.
  unfold ids_increasing. induction 1 as [|r rows Hs IH Hall]; simpl;
    constructor; [|exact IH].
  rewrite in_map_iff. intros [r' [Heq Hin]].
  rewrite Forall_forall in Hall. specialize (Hall r' Hin). lia.
Qed.

(** X8. Saving keeps the primary key in order: when the [id]s of the
    table increase along its rows, they still do after any sequence of
    [save_info] calls on the open store, so no two rows share an [id]. *)
Theorem saves_keep_ids_increasing saves w :
  store_open w = true ->
  table_ids_increasing w ->
  exists w' rows,
    save_all saves w = (Ok tt, w') /\
    table w' = Some rows /\
    ids_increasing rows /\
    NoDup (map row_id rows).
Proof.
  revert w. induction saves as [|[[ticker doc_type] dir_path] saves IH];
    intros w Hopen Hinc.
  - destruct (store_open_inv w Hopen) as [c [rows [_ [_ [_ Ht]]]]].
    unfold table_ids_increasing in Hinc. rewrite Ht in Hinc.
    exists w, rows. simpl. repeat split; auto.
    apply ids_increasing_NoDup. exact Hinc.
  - destruct (save_info_open ticker doc_type dir_path w Hopen)
      as [rows [Ht Hsave]].
    destruct (save_info_open_stays_open ticker doc_type dir_path w Hopen)
      as [w1 [Hsave1 [Hopen1 _]]].
    rewrite Hsave in Hsave1. inversion Hsave1 as [Hw1]. clear Hsave1.
    assert (Hinc1 : table_ids_increasing w1).
    { rewrite <- Hw1. unfold table_ids_increasing. simpl.
      apply insert_row_ids_increasing.
      unfold table_ids_increasing in Hinc. rewrite Ht in Hinc. exact Hinc. }
    destruct (IH w1 Hopen1 Hinc1) as [w' [rows' [Hrun H]]].
    exists w', rows'. split; [|exact H].
    simpl. unfold bind. rewrite Hsave, Hw1. exact Hrun.
Qed.

Lemma saves_keep_ids_increasing_witness :
  store_open Demo.started = true /\
  table_ids_increasing Demo.started /\
  exists w' rows,
    save_all [("AAPL", "10-K", "/p1"); ("MSFT", "10-K", "/m");
              ("AAPL", "10-K", "/p2")] Demo.started = (Ok tt, w') /\
    table w' = Some rows /\
    ids_increasing rows /\
    NoDup (map row_id rows).
Proof.
  split; [reflexivity|]. split; [constructor|].
  apply (saves_keep_ids_increasing
           [("AAPL", "10-K", "/p1"); ("MSFT", "10-K", "/m");
            ("AAPL", "10-K", "/p2")] Demo.started);
    [reflexivity | constructor].
Defined.

(* ===================================================================== *)
(** ** More about the selection of elements *)
(* ===================================================================== *)

Import SoupSpec.

(** Induction on a tree, with the property at hand for all children. *)
Lemma Node_children_ind (P : Node -> Prop) :
  (forall text, P (NavigableString text)) ->
  (forall name children, Forall P children -> P (Tag name children)) ->
  forall x, P x.
Proof.
  intros Htext Htag.
  refine (fix go (x : Node) : P x :=
            match x with
            | NavigableString text => Htext text
            | Tag name children =>
                Htag name children
                  ((fix all (l : list Node) : Forall P l :=
                      match l with
                      | [] => Forall_nil P
                      | c :: l' => Forall_cons c (go c) (all l')
                      end) children)
            end).
Qed.

Lemma descendants_Tag name children :
  descendants (Tag name children)
  = flat_map (fun c => c :: descendants c) children.
Proof.
  simpl. induction children as [|c children IH]; [reflexivity|].
  simpl. rewrite IH. reflexivity.
Qed.

(** What lies below a descendant lies below the ancestor. *)
Lemma descendants_trans doc : forall d x,
  In d (descendants doc) -> In x (descendants d) -> In x (descendants doc).
Proof.
  induction doc as [text|name children IH] using Node_children_ind;
    intros d x Hd Hx; [destruct Hd|].
  rewrite descendants_Tag in *. rewrite in_flat_map in *.
  destruct Hd as [c [Hc Hd]]. exists c. split; [exact Hc|].
  destruct Hd as [<-|Hd]; [right; exact Hx|].
  right. rewrite Forall_forall in IH. exact (IH c Hc d x Hd Hx).
Qed.

Lemma find_span_truthy x : truthy (find x "span") = has_span x.
Proof.
  unfold find, has_span.
  induction (descendants x) as [|d l IH]; simpl; [reflexivity|].
  destruct (is_tag d && (name_of d =? "span")); simpl; [reflexivity|].
  exact IH.
Qed.

Lemma selected_iff doc x :
  In x (find_all p_span_filter doc)
  <-> In x (descendants doc) /\ is_tag x = true /\ has_span x = true.
Proof.
  unfold find_all. rewrite filter_In, andb_true_iff.
  rewrite p_span_filter_any_name, find_span_truthy. tauto.
Qed.

Lemma has_span_below d x :
  In x (descendants d) -> has_span x = true -> has_span d = true.
Proof.
  unfold has_span. rewrite !existsb_exists.
  intros Hx [s [Hs Hspan]]. exists s. split; [|exact Hspan].
  exact (descendants_trans d x s Hx Hs).
Qed.

(** X9. Selection is closed upwards: when an element is selected, every
    element of the document that contains it is selected too. The text of
    one span is therefore extracted once for each element around it. *)
Theorem elements_around_a_selected_one_are_selected doc d x :
  In d (descendants doc) ->
  is_tag d = true ->
  In x (descendants d) ->
  In x (find_all p_span_filter doc) ->
  In d (find_all p_span_filter doc).
Proof.
  intros Hd Htag Hx Hsel. apply selected_iff in Hsel.
  apply selected_iff. split; [exact Hd|]. split; [exact Htag|].
  apply (has_span_below d x Hx). tauto.
Qed.

Lemma elements_around_a_selected_one_are_selected_witness :
  let p := Tag "p" [Tag "span" [NavigableString "Net sales"]] in
  let d := Tag "div" [p] in
  let doc := Tag "[document]" [d] in
  In d (descendants doc) /\
  is_tag d = true /\
  In p (descendants d) /\
  In p (find_all p_span_filter doc) /\
  In d (find_all p_span_filter doc).
Proof.
  intros p d doc.
  assert (Hd : In d (descendants doc)) by (left; reflexivity).
  assert (Hp : In p (descendants d)) by (left; reflexivity).
  assert (Hsel : In p (find_all p_span_filter doc))
    by (right; left; reflexivity).
  repeat split; try assumption.
  exact (elements_around_a_selected_one_are_selected doc d p Hd eq_refl
           Hp Hsel).
Defined.

(** A paragraph inside a division: the sentence is extracted twice. *)
Example nested_blocks_repeat_text :
  extract_text
    (Tag "[document]"
       [Tag "div" [Tag "p" [Tag "span" [NavigableString "Net sales"]]]])
  = "Net sales Net sales".
Proof. reflexivity. Qed.

Lemma filter_none {A} (f : A -> bool) (l : list A) :
  (forall x, In x l -> f x = false) -> filter f l = [].
Proof.
  induction l as [|a l IH]; simpl; intros H; [reflexivity|].
  rewrite (H a (or_introl eq_refl)). apply IH.
  intros x Hx. apply H. right. exact Hx.
Qed.

(** X10. A document without any [span] element has no selected element
    and contributes the empty string, whatever paragraphs, divisions and
    text it contains. *)
Theorem document_without_span_has_no_text doc :
  has_span doc = false ->
  find_all p_span_filter doc = [] /\ extract_text doc = "".
Proof.
  intros Hnone.
  assert (Hall : find_all p_span_filter doc = []).
  { unfold find_all. apply filter_none. intros d Hd.
    rewrite p_span_filter_any_name, find_span_truthy.
    destruct (has_span d) eqn:Hs; [|apply andb_false_r].
    rewrite (has_span_below doc d Hd Hs) in Hnone. discriminate. }
  split; [exact Hall|]. unfold extract_text. rewrite Hall. reflexivity.
Qed.

Lemma document_without_span_has_no_text_witness :
  has_span Demo.numbers_only = false /\
  find_all p_span_filter Demo.numbers_only = [] /\
  extract_text Demo.numbers_only = "".
Proof.
  split; [reflexivity|].
  apply (document_without_span_has_no_text Demo.numbers_only).
  reflexivity.
Defined.

(* ===================================================================== *)
(** ** More about the filing retriever *)
(* ===================================================================== *)

Lemma upper_ascii_idempotent c :
  PyStr.upper_ascii (PyStr.upper_ascii c) = PyStr.upper_ascii c.
Proof.
  destruct c as [[] [] [] [] [] [] [] []]; reflexivity.
Qed.

Lemma upper_idempotent s : PyStr.upper (PyStr.upper s) = PyStr.upper s.
Proof.
  induction s as [|c s IH]; simpl; [reflexivity|].
  rewrite upper_ascii_idempotent, IH. reflexivity.
Qed.

(** X11. The ticker is normalised: [download_documents] and [main] behave
    on a ticker exactly as on its upper-cased form, so the case in which
    the ticker was typed never reaches the download, the store or the
    log. *)
Theorem ticker_case_is_normalised
  (Downloader_new : string -> string -> string -> Result unit)
  (Downloader_get :
     string -> string -> string -> DocType -> TickerType -> option Z
     -> Result Z)
  (text_files : string -> Result (list (string * string)))
  (XBRLParser_parse : string -> Result Node)
  (Qdrant_from_documents : list Document -> string -> Result unit)
  ticker doc_type save_dir docs_number w :
  download_documents Downloader_new Downloader_get (PyStr.upper ticker)
    doc_type save_dir docs_number w
  = download_documents Downloader_new Downloader_get ticker doc_type
      save_dir docs_number w
  /\
  main Downloader_new Downloader_get text_files XBRLParser_parse
    Qdrant_from_documents (mkArgs (PyStr.upper ticker) doc_type save_dir) w
  = main Downloader_new Downloader_get text_files XBRLParser_parse
      Qdrant_from_documents (mkArgs ticker doc_type save_dir) w.
Proof.
  unfold download_documents, main. simpl.
  rewrite upper_idempotent. split; reflexivity.
Qed.

(** X12. [download_documents] wraps [Exception]s only: a
    [KeyboardInterrupt] or [SystemExit] raised by the retrieval client,
    when it is constructed or in its [get], leaves the function as it
    is, without the wrapping error, and the world is not changed. *)
Theorem download_interrupt_is_not_wrapped
  (Downloader_new : string -> string -> string -> Result unit)
  (Downloader_get :
     string -> string -> string -> DocType -> TickerType -> option Z
     -> Result Z)
  ticker doc_type save_dir docs_number e w :
  Downloader_new _COMPANY _EMAIL save_dir = Raise e \/
  (Downloader_new _COMPANY _EMAIL save_dir = Ok tt /\
   Downloader_get _COMPANY _EMAIL save_dir doc_type (PyStr.upper ticker)
     docs_number = Raise e) ->
  is_Exception e = false ->
  download_documents Downloader_new Downloader_get ticker doc_type save_dir
    docs_number w
  = (Raise e, w).
Proof.
  intros Hraise Hexc.
  unfold download_documents, try_except, bind, lift.
  destruct Hraise as [Hnew|[Hnew Hget]]; rewrite Hnew; [reflexivity|].
  rewrite Hget. simpl. rewrite Hexc. reflexivity.
Qed.

Lemma download_interrupt_is_not_wrapped_witness :
  (Demo.client _COMPANY _EMAIL "." = Raise (Exc KeyboardInterrupt "" None) \/
   (Demo.client _COMPANY _EMAIL "." = Ok tt /\
    Demo.interrupted_download _COMPANY _EMAIL "." "10-K"
      (PyStr.upper "aapl") None = Raise (Exc KeyboardInterrupt "" None))) /\
  is_Exception (Exc KeyboardInterrupt "" None) = false /\
  download_documents Demo.client Demo.interrupted_download "aapl" "10-K" "."
    None Demo.fresh
  = (Raise (Exc KeyboardInterrupt "" None), Demo.fresh).
Proof.
  split; [right; split; reflexivity|]. split; [reflexivity|].
  apply (download_interrupt_is_not_wrapped Demo.client
           Demo.interrupted_download "aapl" "10-K" "." None
           (Exc KeyboardInterrupt "" None) Demo.fresh);
    [right; split; reflexivity | reflexivity].
Defined.

(* ===================================================================== *)
(** ** More about the document combiner *)
(* ===================================================================== *)

Lemma for_each_app {A S} (body : A -> S -> M S) xs ys s w :
  for_each body (xs ++ ys)%list s w
  = match for_each body xs s w with
    | (Ok s', w') => for_each body ys s' w'
    | (Raise e, w') => (Raise e, w')
    end.
Proof.
  revert s w. induction xs as [|x xs IH]; intros s w; simpl; [reflexivity|].
  unfold bind. destruct (body x s w) as [[s'|e] w']; [apply IH|reflexivity].
Qed.

(** X13. A directory that cannot be listed stops the combination: the
    error of the loader leaves [combine_documents] unhandled, no document
    is returned, and the directories after it are not read. The log keeps
    the records of the files skipped before. *)
Theorem loader_failure_stops_combination
  (text_files : string -> Result (list (string * string)))
  (XBRLParser_parse : string -> Result Node) before d after e w :
  loads_ok text_files before = true ->
  parse_failures_are_exceptions text_files XBRLParser_parse before = true ->
  text_files d = Raise e ->
  combine_documents text_files XBRLParser_parse (before ++ d :: after)%list w
  = (Raise e,
     add_log (flat_map (skip_record XBRLParser_parse)
                (sources text_files before)) w).
Proof.
  intros Hload Hexc Hd.
  unfold combine_documents, bind. rewrite for_each_app.
  rewrite combine_dirs_run by assumption. simpl.
  unfold bind at 1. unfold combine_dir at 1, bind, lift,
    DirectoryLoader_load. rewrite Hd. reflexivity.
Qed.

Lemma loader_failure_stops_combination_witness :
  loads_ok Demo.text_files ["A"] = true /\
  parse_failures_are_exceptions Demo.text_files Demo.XBRLParser_parse ["A"]
  = true /\
  Demo.text_files "nowhere" = Raise Demo.not_found /\
  combine_documents Demo.text_files Demo.XBRLParser_parse
    (["A"] ++ "nowhere" :: ["B"])%list Demo.fresh
  = (Raise Demo.not_found,
     add_log (flat_map (skip_record Demo.XBRLParser_parse)
                (sources Demo.text_files ["A"])) Demo.fresh).
Proof.
  split; [reflexivity|]. split; [reflexivity|]. split; [reflexivity|].
  apply (loader_failure_stops_combination Demo.text_files
           Demo.XBRLParser_parse ["A"] "nowhere" ["B"] Demo.not_found
           Demo.fresh); reflexivity.
Defined.

(** X14. The [try] statement swallows [Exception]s only: when the parser
    raises a [KeyboardInterrupt] or [SystemExit] on a file, the exception
    leaves [combine_documents], nothing is logged for that file, and the
    files and directories after it are not read. *)
Theorem interrupt_in_parser_stops_combination
  (text_files : string -> Result (list (string * string)))
  (XBRLParser_parse : string -> Result Node)
  before d after done file rest e w :
  loads_ok text_files before = true ->
  parse_failures_are_exceptions text_files XBRLParser_parse before = true ->
  text_files d = Ok (done ++ file :: rest)%list ->
  forallb (fun source =>
             match XBRLParser_parse source with
             | Ok _ => true
             | Raise e' => is_Exception e'
             end) (map fst done) = true ->
  XBRLParser_parse (fst file) = Raise e ->
  is_Exception e = false ->
  combine_documents text_files XBRLParser_parse (before ++ d :: after)%list w
  = (Raise e,
     add_log (flat_map (skip_record XBRLParser_parse)
                (sources text_files before ++ map fst done)%list) w).
Proof.
  intros Hload Hexc Hd Hdone Hfile Hfatal.
  unfold combine_documents, bind. rewrite for_each_app.
  rewrite combine_dirs_run by assumption. simpl.
  unfold bind at 1. unfold combine_dir at 1, bind, lift,
    DirectoryLoader_load. rewrite Hd.
  rewrite map_app, for_each_app.
  rewrite combine_files_run by exact Hdone. simpl.
  unfold bind at 1. unfold combine_file at 1, parse_or_skip, try_except,
    bind, lift. destruct file as [source content]. simpl in *.
  rewrite Hfile. simpl.
  assert (Hx : is_XBRLParserException e = false)
    by (destruct e as [[] ? ?]; try reflexivity; discriminate Hfatal).
  assert (Hi : is_IndexError e = false)
    by (destruct e as [[] ? ?]; try reflexivity; discriminate Hfatal).
  rewrite Hx, Hi, Hfatal. unfold raise.
  rewrite flat_map_app, add_log_app. reflexivity.
Qed.

Lemma interrupt_in_parser_stops_combination_witness :
  loads_ok Demo.text_files ["N"] = true /\
  parse_failures_are_exceptions Demo.text_files Scenario.interrupted_parse
    ["N"] = true /\
  Demo.text_files "A"
  = Ok ([("A/a.txt", "<p>..</p>"); ("A/plain.txt", "hello")]
          ++ ("A/broken.txt", "<xbrl>") :: [("A/odd.txt", "?")])%list /\
  forallb (fun source =>
             match Scenario.interrupted_parse source with
             | Ok _ => true
             | Raise e' => is_Exception e'
             end)
    (map fst [("A/a.txt", "<p>..</p>"); ("A/plain.txt", "hello")]) = true /\
  Scenario.interrupted_parse (fst ("A/broken.txt", "<xbrl>"))
  = Raise (Exc KeyboardInterrupt "" None) /\
  is_Exception (Exc KeyboardInterrupt "" None) = false /\
  combine_documents Demo.text_files Scenario.interrupted_parse
    (["N"] ++ "A" :: ["B"])%list Demo.fresh
  = (Raise (Exc KeyboardInterrupt "" None),
     add_log (flat_map (skip_record Scenario.interrupted_parse)
                (sources Demo.text_files ["N"]
                   ++ map fst [("A/a.txt", "<p>..</p>");
                               ("A/plain.txt", "hello")])%list) Demo.fresh).
Proof.
  repeat (split; [reflexivity|]).
  apply (interrupt_in_parser_stops_combination Demo.text_files
           Scenario.interrupted_parse ["N"] "A" ["B"]
           [("A/a.txt", "<p>..</p>"); ("A/plain.txt", "hello")]
           ("A/broken.txt", "<xbrl>") [("A/odd.txt", "?")]
           (Exc KeyboardInterrupt "" None) Demo.fresh); reflexivity.
Defined.

(* ===================================================================== *)
(** ** What a computation leaves alone *)
(* ===================================================================== *)

Import Frame Stages.

Section Respect.

Variable R : World -> World -> Prop.
Hypothesis R_refl : forall w, R w w.
Hypothesis R_trans : forall w1 w2 w3, R w1 w2 -> R w2 w3 -> R w1 w3.

Lemma respects_ret {A} (a : A) : respects R (ret a).
Proof. intros w. apply R_refl. Qed.

Lemma respects_raise {A} e : respects R (@raise A e).
Proof. intros w. apply R_refl. Qed.

Lemma respects_lift {A} (r : Result A) : respects R (lift r).
Proof. intros w. apply R_refl. Qed.

Lemma respects_get_world : respects R get_world.
Proof. intros w. apply R_refl. Qed.

Lemma respects_bind {A B} (m : M A) (k : A -> M B) :
  respects R m -> (forall a, respects R (k a)) -> respects R (bind m k).
Proof.
  intros Hm Hk w. unfold bind. specialize (Hm w).
  destruct (m w) as [[a|e] w1]; simpl in *; [|exact Hm].
  eapply R_trans; [exact Hm | apply Hk].
Qed.

Lemma respects_dispatch {A}
  (handlers : list ((exn -> bool) * (exn -> M A))) e :
  Forall (fun h => forall e', respects R (snd h e')) handlers ->
  respects R (dispatch handlers e).
Proof.
  induction 1 as [|[test handler] handlers Hh Hrest IH]; simpl.
  - apply respects_raise.
  - destruct (test e); [apply Hh | exact IH].
Qed.

Lemma respects_try_except {A} (body : M A) handlers :
  respects R body ->
  Forall (fun h => forall e, respects R (snd h e)) handlers ->
  respects R (try_except body handlers).
Proof.
  intros Hb Hh w. unfold try_except. specialize (Hb w).
  destruct (body w) as [[a|e] w1]; simpl in *; [exact Hb|].
  eapply R_trans; [exact Hb | apply respects_dispatch, Hh].
Qed.

Lemma respects_for_each {A S} (body : A -> S -> M S) xs :
  (forall x s, respects R (body x s)) ->
  forall s, respects R (for_each body xs s).
Proof.
  intros Hb. induction xs as [|x xs IH]; intros s; simpl.
  - apply respects_ret.
  - apply respects_bind; [apply Hb | exact IH].
Qed.

End Respect.

Create HintDb frames.

(** Goals [respects R m] for a program [m] written with the combinators,
    given that [R] is reflexive and transitive; what [R] says of the
    primitives is looked up among the hints. *)
Ltac frame Hrefl Htrans :=
  repeat first
    [ apply (respects_ret _ Hrefl) | apply (respects_raise _ Hrefl)
    | apply (respects_lift _ Hrefl) | apply (respects_get_world _ Hrefl)
    | solve [auto 1 with frames]
    | apply (respects_bind _ Htrans); [|intros ?]
    | apply (respects_try_except _ Hrefl Htrans)
    | apply (respects_for_each _ Hrefl Htrans); intros ? ?
    | apply Forall_cons; [intros ?; cbn [snd]|]
    | apply Forall_nil
    | match goal with
      | |- respects _ (match ?x with _ => _ end) => destruct x
      end ].

Lemma log_grows_refl w : log_grows w w.
Proof. exists []. symmetry. apply add_log_nil. Qed.

Lemma log_grows_trans w1 w2 w3 :
  log_grows w1 w2 -> log_grows w2 w3 -> log_grows w1 w3.
Proof.
  intros [r1 ->] [r2 ->]. exists (r1 ++ r2)%list. symmetry.
  apply add_log_app.
Qed.

Lemma log_grows_emit r : respects log_grows (emit r).
Proof. intros w. exists [r]. reflexivity. Qed.

#[local] Hint Resolve log_grows_emit : frames.

Lemma log_grows_cursor_ready : respects log_grows cursor_ready.
Proof. unfold cursor_ready. frame log_grows_refl log_grows_trans. Qed.

#[local] Hint Resolve log_grows_cursor_ready : frames.

Lemma log_grows_get_info ticker doc_type :
  respects log_grows (get_info ticker doc_type).
Proof. unfold get_info. frame log_grows_refl log_grows_trans. Qed.

#[local] Hint Resolve log_grows_get_info : frames.

Lemma log_grows_combine_documents
  (text_files : string -> Result (list (string * string)))
  (XBRLParser_parse : string -> Result Node) dir_paths :
  respects log_grows
    (combine_documents text_files XBRLParser_parse dir_paths).
Proof.
  unfold combine_documents, combine_dir, combine_file, parse_or_skip,
    log_warning, log_exception.
  frame log_grows_refl log_grows_trans.
Qed.

#[local] Hint Resolve log_grows_combine_documents : frames.

Lemma log_grows_after_save
  (text_files : string -> Result (list (string * string)))
  (XBRLParser_parse : string -> Result Node)
  (Qdrant_from_documents : list Document -> string -> Result unit)
  ticker doc_type :
  respects log_grows
    (after_save text_files XBRLParser_parse Qdrant_from_documents ticker
       doc_type).
Proof.
  unfold after_save, vectorize_and_save_to_store, log_info.
  frame log_grows_refl log_grows_trans.
Qed.

(** X15. [combine_documents] writes log records and nothing else:
    whatever the loader and the parser answer, and whether it returns or
    raises, the world it leaves is the world it found with records added
    to the log; the store and standard output are never touched. *)
Theorem combine_documents_only_logs
  (text_files : string -> Result (list (string * string)))
  (XBRLParser_parse : string -> Result Node) dir_paths w :
  exists records,
    snd (combine_documents text_files XBRLParser_parse dir_paths w)
    = add_log records w.
Proof. apply log_grows_combine_documents. Qed.

(* ===================================================================== *)
(** ** More about the pipeline and [main] *)
(* ===================================================================== *)

Lemma table_and_log_refl w : table_and_log w w.
Proof.
  repeat split. exists []. symmetry. apply app_nil_r.
Qed.

Lemma table_and_log_trans w1 w2 w3 :
  table_and_log w1 w2 -> table_and_log w2 w3 -> table_and_log w1 w3.
Proof.
  intros [H1 [H2 [H3 [H4 [r1 H5]]]]] [K1 [K2 [K3 [K4 [r2 K5]]]]].
  split; [eapply same_handles_trans; eassumption|].
  repeat split; try congruence.
  exists (r1 ++ r2)%list. rewrite K5, H5, app_assoc. reflexivity.
Qed.

Lemma table_and_log_emit r : respects table_and_log (emit r).
Proof. intros w. repeat split. exists [r]. reflexivity. Qed.

Lemma table_and_log_set_table t : respects table_and_log (set_table t).
Proof.
  intros w. repeat split. exists []. symmetry. apply app_nil_r.
Qed.

Section PipelineRuns.

Variable Downloader_new : string -> string -> string -> Result unit.
Variable Downloader_get :
  string -> string -> string -> DocType -> TickerType -> option Z
  -> Result Z.
Variable text_files : string -> Result (list (string * string)).
Variable XBRLParser_parse : string -> Result Node.
Variable Qdrant_from_documents : list Document -> string -> Result unit.

Let pipeline := pipeline Downloader_new Downloader_get text_files
                  XBRLParser_parse Qdrant_from_documents.
Let after_save := after_save text_files XBRLParser_parse
                    Qdrant_from_documents.

Lemma table_and_log_pipeline ticker doc_type save_dir :
  respects table_and_log (pipeline ticker doc_type save_dir).
Proof.
  unfold pipeline, Main.pipeline, download_documents, save_info, get_info,
    cursor_ready, commit, combine_documents, combine_dir, combine_file,
    parse_or_skip, vectorize_and_save_to_store, log_info, log_warning,
    log_exception.
  repeat first
    [ apply table_and_log_emit | apply table_and_log_set_table
    | progress frame table_and_log_refl table_and_log_trans ].
Qed.

(** [download_documents] leaves the world as it is and ends as
    [download_outcome] says. *)
Lemma download_documents_run ticker doc_type save_dir docs_number w :
  download_documents Downloader_new Downloader_get ticker doc_type save_dir
    docs_number w
  = (download_outcome Downloader_new Downloader_get ticker doc_type save_dir
       docs_number, w).
Proof.
  unfold download_documents, download_outcome, try_except, bind, lift.
  destruct (Downloader_new _COMPANY _EMAIL save_dir) as [[]|e0];
    [|reflexivity].
  destruct (Downloader_get _COMPANY _EMAIL save_dir doc_type
              (PyStr.upper ticker) docs_number) as [n|e]; [reflexivity|].
  simpl. destruct (is_Exception e); reflexivity.
Qed.

Lemma download_ok ticker doc_type save_dir docs_number n w :
  Downloader_new _COMPANY _EMAIL save_dir = Ok tt ->
  Downloader_get _COMPANY _EMAIL save_dir doc_type (PyStr.upper ticker)
    docs_number = Ok n ->
  download_documents Downloader_new Downloader_get ticker doc_type save_dir
    docs_number w
  = (Ok (filings_dir save_dir ticker doc_type), w).
Proof.
  intros Hnew Hget. rewrite download_documents_run.
  unfold download_outcome. rewrite Hnew, Hget. reflexivity.
Qed.

Lemma pipeline_stages ticker doc_type save_dir :
  pipeline ticker doc_type save_dir
  = (path <- download_documents Downloader_new Downloader_get ticker
               doc_type save_dir None ;;
     log_info Main.log_name
       ("Downloaded " ++ doc_type ++ " documents for " ++ ticker) ;;;
     save_info ticker doc_type path ;;;
     after_save ticker doc_type).
Proof. reflexivity. Qed.

Lemma store_open_add_log records w :
  store_open (add_log records w) = store_open w.
Proof. reflexivity. Qed.

(** The pipeline after a download that succeeded, on an open store: the
    record is written, and the rest runs on the world that holds it. *)
Lemma pipeline_after_download ticker doc_type save_dir n w :
  store_open w = true ->
  Downloader_new _COMPANY _EMAIL save_dir = Ok tt ->
  Downloader_get _COMPANY _EMAIL save_dir doc_type (PyStr.upper ticker)
    None = Ok n ->
  exists rows,
    table w = Some rows /\
    pipeline ticker doc_type save_dir w
    = after_save ticker doc_type
        (add_log
           [info ("Downloaded " ++ doc_type ++ " documents for " ++ ticker)]
           (snd (set_table
                   (Some (insert_row (clock w) ticker doc_type
                            (filings_dir save_dir ticker doc_type) rows))
                   w))).
Proof.
  intros Hopen Hnew Hget. rewrite pipeline_stages.
  unfold bind at 1. rewrite (download_ok _ _ _ _ _ _ Hnew Hget).
  unfold bind at 1.
  change (log_info Main.log_name
            ("Downloaded " ++ doc_type ++ " documents for " ++ ticker) w)
    with (Ok tt,
          add_log [info ("Downloaded " ++ doc_type ++ " documents for "
                           ++ ticker)] w).
  unfold bind at 1.
  destruct (save_info_open ticker doc_type
              (filings_dir save_dir ticker doc_type)
              (add_log [info ("Downloaded " ++ doc_type
                                ++ " documents for " ++ ticker)] w) Hopen)
    as [rows [Ht Hsave]].
  rewrite Hsave. exists rows. split; [exact Ht|]. reflexivity.
Qed.

End PipelineRuns.

Lemma bind_ok {A B} (m : M A) (k : A -> M B) a w w' :
  m w = (Ok a, w') -> bind m k w = k a w'.
Proof. intros H. unfold bind. rewrite H. reflexivity. Qed.

Lemma log_info_run name msg w :
  log_info name msg w = (Ok tt, add_log [mkLogRecord name INFO msg None] w).
Proof. reflexivity. Qed.

Lemma records_add_log ticker doc_type records w :
  StoreSpec.records ticker doc_type (add_log records w)
  = StoreSpec.records ticker doc_type w.
Proof. reflexivity. Qed.

(** X16. [pipeline] leaves the store globals, the open connections, the
    clock and standard output as they are, whatever the collaborators
    answer and however it ends: it never opens or closes a connection and
    never prints; the log only grows. *)
Theorem pipeline_touches_table_and_log_only
  (Downloader_new : string -> string -> string -> Result unit)
  (Downloader_get :
     string -> string -> string -> DocType -> TickerType -> option Z
     -> Result Z)
  (text_files : string -> Result (list (string * string)))
  (XBRLParser_parse : string -> Result Node)
  (Qdrant_from_documents : list Document -> string -> Result unit)
  ticker doc_type save_dir w :
  let w' := snd (pipeline Downloader_new Downloader_get text_files
                   XBRLParser_parse Qdrant_from_documents ticker doc_type
                   save_dir w) in
  store_connection w' = store_connection w /\
  cursor w' = cursor w /\
  live w' = live w /\
  stdout w' = stdout w /\
  exists records, log w' = (log w ++ records)%list.
Proof.
  destruct (table_and_log_pipeline Downloader_new Downloader_get text_files
              XBRLParser_parse Qdrant_from_documents ticker doc_type
              save_dir w) as [[H1 [H2 H3]] [_ [_ [H4 H5]]]].
  auto.
Qed.

(** X17. The download is recorded before anything else is done with it:
    on an open store, once the retrieval has succeeded, the store holds
    exactly one record for the pair, with the directory of the filings,
    whether the combination and the upload then succeed or fail. *)
Theorem download_is_recorded_whatever_follows
  (Downloader_new : string -> string -> string -> Result unit)
  (Downloader_get :
     string -> string -> string -> DocType -> TickerType -> option Z
     -> Result Z)
  (text_files : string -> Result (list (string * string)))
  (XBRLParser_parse : string -> Result Node)
  (Qdrant_from_documents : list Document -> string -> Result unit)
  ticker doc_type save_dir n w :
  store_open w = true ->
  Downloader_new _COMPANY _EMAIL save_dir = Ok tt ->
  Downloader_get _COMPANY _EMAIL save_dir doc_type (PyStr.upper ticker)
    None = Ok n ->
  let w' := snd (pipeline Downloader_new Downloader_get text_files
                   XBRLParser_parse Qdrant_from_documents ticker doc_type
                   save_dir w) in
  store_open w' = true /\
  map row_dir_path (StoreSpec.records ticker doc_type w')
  = [save_dir ++ "/sec-edgar-filings/" ++ PyStr.upper ticker ++ "/"
       ++ doc_type ++ "/"].
Proof.
  intros Hopen Hnew Hget w'.
  destruct (pipeline_after_download Downloader_new Downloader_get text_files
              XBRLParser_parse Qdrant_from_documents ticker doc_type
              save_dir n w Hopen Hnew Hget) as [rows [Ht Hrun]].
  unfold w'. rewrite Hrun.
  match goal with
  | |- context [after_save _ _ _ ticker doc_type ?w2] =>
      destruct (log_grows_after_save text_files XBRLParser_parse
                  Qdrant_from_documents ticker doc_type w2) as [recs ->]
  end.
  split.
  - rewrite !store_open_add_log.
    destruct (store_open_inv w Hopen) as [c [rows' [Hsc [Hcu [Hl _]]]]].
    unfold store_open, is_live in *. simpl. rewrite Hsc, Hcu. simpl.
    rewrite Nat.eqb_refl. exact Hl.
  - rewrite !records_add_log. unfold StoreSpec.records. simpl.
    rewrite filter_same_key_insert. reflexivity.
Qed.

Lemma download_is_recorded_whatever_follows_witness :
  store_open Demo.started = true /\
  Demo.client _COMPANY _EMAIL "." = Ok tt /\
  Demo.working_download _COMPANY _EMAIL "." "10-K" (PyStr.upper "AAPL")
    None = Ok 1%Z /\
  let w' := snd (pipeline Demo.client Demo.working_download Demo.text_files
                   Demo.XBRLParser_parse Scenario.unreachable_index
                   "AAPL" "10-K" "." Demo.started) in
  store_open w' = true /\
  map row_dir_path (StoreSpec.records "AAPL" "10-K" w')
  = ["." ++ "/sec-edgar-filings/" ++ PyStr.upper "AAPL" ++ "/"
       ++ "10-K" ++ "/"].
Proof.
  split; [reflexivity|]. split; [reflexivity|]. split; [reflexivity|].
  apply (download_is_recorded_whatever_follows Demo.client
           Demo.working_download Demo.text_files Demo.XBRLParser_parse
           Scenario.unreachable_index
           "AAPL" "10-K" "." 1%Z Demo.started); reflexivity.
Defined.

(** The upload fails, the record stays. *)
Example failed_upload_keeps_the_record :
  let run := pipeline Demo.client Demo.working_download Demo.text_files
               Demo.XBRLParser_parse Scenario.unreachable_index
               "AAPL" "10-K" "." Demo.started in
  fst run
  = Raise (Exc (OtherException "ConnectionError") "index unreachable" None)
  /\
  map row_dir_path (StoreSpec.records "AAPL" "10-K" (snd run))
  = ["./sec-edgar-filings/AAPL/10-K/"].
Proof. split; reflexivity. Qed.

(** X18. A retrieval that fails ends the pipeline at once: whatever
    error [download_documents] ends with (the error of a client that
    cannot be constructed, the wrapping error of a failed [get], an
    interrupt) is the outcome of the pipeline, and the world is
    untouched: nothing is recorded in the store and nothing is logged. *)
Theorem failed_download_changes_nothing
  (Downloader_new : string -> string -> string -> Result unit)
  (Downloader_get :
     string -> string -> string -> DocType -> TickerType -> option Z
     -> Result Z)
  (text_files : string -> Result (list (string * string)))
  (XBRLParser_parse : string -> Result Node)
  (Qdrant_from_documents : list Document -> string -> Result unit)
  ticker doc_type save_dir e w :
  download_outcome Downloader_new Downloader_get ticker doc_type save_dir
    None = Raise e ->
  download_documents Downloader_new Downloader_get ticker doc_type save_dir
    None w = (Raise e, w) /\
  pipeline Downloader_new Downloader_get text_files XBRLParser_parse
    Qdrant_from_documents ticker doc_type save_dir w = (Raise e, w).
Proof.
  intros Hout.
  pose proof (download_documents_run Downloader_new Downloader_get ticker
                doc_type save_dir None w) as Hrun.
  rewrite Hout in Hrun. split; [exact Hrun|].
  rewrite pipeline_stages. unfold bind at 1. rewrite Hrun. reflexivity.
Qed.

Lemma failed_download_changes_nothing_witness :
  download_outcome Demo.refused_client Demo.working_download "AAPL" "10-K"
    "." None = Raise Demo.bad_email /\
  download_documents Demo.refused_client Demo.working_download "AAPL" "10-K"
    "." None Demo.started = (Raise Demo.bad_email, Demo.started) /\
  pipeline Demo.refused_client Demo.working_download Demo.text_files
    Demo.XBRLParser_parse Demo.Qdrant_from_documents "AAPL" "10-K" "."
    Demo.started = (Raise Demo.bad_email, Demo.started).
Proof.
  split; [reflexivity|].
  apply (failed_download_changes_nothing Demo.refused_client
           Demo.working_download Demo.text_files Demo.XBRLParser_parse
           Demo.Qdrant_from_documents "AAPL" "10-K" "." Demo.bad_email
           Demo.started).
  reflexivity.
Defined.

(** A [get] that times out: the pipeline ends with the wrapping error. *)
Example timed_out_download_ends_the_pipeline :
  pipeline Demo.client Demo.failing_download Demo.text_files
    Demo.XBRLParser_parse Demo.Qdrant_from_documents "AAPL" "10-K" "."
    Demo.started
  = (Raise (Exc Exception_
              "Failed to fetch document for AAPL from Edgar database"
              (Some Demo.timeout)), Demo.started).
Proof. reflexivity. Qed.

Import Runs.

Lemma log_add_log records w :
  log (add_log records w) = (log w ++ records)%list.
Proof. reflexivity. Qed.

Lemma store_open_saved rows w :
  store_open w = true ->
  store_open (snd (set_table (Some rows) w)) = true.
Proof.
  intros Hopen.
  destruct (store_open_inv w Hopen) as [c [rows' [Hsc [Hcu [Hl _]]]]].
  unfold store_open, is_live in *. simpl. rewrite Hsc, Hcu. simpl.
  rewrite Nat.eqb_refl. exact Hl.
Qed.

(** X19. The stages of the pipeline fit together. On an open store,
    after a retrieval that succeeded and a directory that can be read,
    the pipeline ends exactly as the vector index answers the upload of
    the chunks of the combined text to the collection named after the
    lower-cased ticker and document type: it returns when the index
    accepts and raises the error of the index when it refuses. The
    directory combined is the one read back from the store, which is the
    one [download_documents] returned; the log holds the stage messages
    in order, with the records of the skipped files before "Combined" and
    with "Uploaded" only after an accepted upload. *)
Theorem pipeline_ends_as_the_upload_does
  (Downloader_new : string -> string -> string -> Result unit)
  (Downloader_get :
     string -> string -> string -> DocType -> TickerType -> option Z
     -> Result Z)
  (text_files : string -> Result (list (string * string)))
  (XBRLParser_parse : string -> Result Node)
  (Qdrant_from_documents : list Document -> string -> Result unit)
  ticker doc_type save_dir n w :
  store_open w = true ->
  Downloader_new _COMPANY _EMAIL save_dir = Ok tt ->
  Downloader_get _COMPANY _EMAIL save_dir doc_type (PyStr.upper ticker)
    None = Ok n ->
  loads_ok text_files [filings_dir save_dir ticker doc_type] = true ->
  parse_failures_are_exceptions text_files XBRLParser_parse
    [filings_dir save_dir ticker doc_type] = true ->
  exists w',
    pipeline Downloader_new Downloader_get text_files XBRLParser_parse
      Qdrant_from_documents ticker doc_type save_dir w
    = (Qdrant_from_documents
         (chunks_of text_files XBRLParser_parse
            (filings_dir save_dir ticker doc_type))
         (PyStr.lower (ticker ++ "_" ++ doc_type)), w') /\
    log w'
    = (log w
         ++ pipeline_log text_files XBRLParser_parse Qdrant_from_documents
              ticker doc_type (filings_dir save_dir ticker doc_type))%list.
Proof.
  intros Hopen Hnew Hget Hload Hparse.
  destruct (pipeline_after_download Downloader_new Downloader_get text_files
              XBRLParser_parse Qdrant_from_documents ticker doc_type
              save_dir n w Hopen Hnew Hget) as [rows [Ht Hrun]].
  rewrite Hrun. clear Hrun. unfold after_save.
  rewrite (bind_ok _ _ _ _ _ (log_info_run _ _ _)).
  match goal with
  | |- context [bind (get_info ticker (Some doc_type)) _ ?w3] =>
      assert (Hopen3 : store_open w3 = true)
        by (rewrite !store_open_add_log; apply store_open_saved;
            exact Hopen);
      destruct (get_info_open ticker (Some doc_type) w3 Hopen3)
        as [rows3 [Ht3 Hget3]]
  end.
  simpl in Ht3. inversion Ht3; subst rows3. clear Ht3.
  rewrite filter_same_key_insert in Hget3.
  rewrite (bind_ok _ _ _ _ _ Hget3).
  cbn [map row_tuple row_dir_path row_id row_ticker row_doc_type
       row_updated_at].
  do 3 (unfold bind at 1; cbn [lift index nth_error row_tuple as_str]).
  rewrite (bind_ok _ _ _ _ _
             (combine_documents_run text_files XBRLParser_parse _ _
                Hload Hparse)).
  do 3 rewrite (bind_ok _ _ _ _ _ (log_info_run _ _ _)).
  unfold vectorize_and_save_to_store, pipeline_log, upload_answer.
  unfold chunks_of, combined_text.
  unfold bind at 1, lift at 1.
  match goal with
  | |- context [Qdrant_from_documents ?chunks ?name] =>
      destruct (Qdrant_from_documents chunks name) as [[]|e]
  end.
  - eexists. split; [apply log_info_run|].
    rewrite !log_add_log.
    change (log (snd (set_table
                        (Some (insert_row (clock w) ticker doc_type
                                 (filings_dir save_dir ticker doc_type)
                                 rows))
                        w)))
      with (log w).
    rewrite <- !app_assoc. reflexivity.
  - eexists. split; [reflexivity|].
    rewrite !log_add_log.
    change (log (snd (set_table
                        (Some (insert_row (clock w) ticker doc_type
                                 (filings_dir save_dir ticker doc_type)
                                 rows))
                        w)))
      with (log w).
    rewrite <- !app_assoc, app_nil_r. reflexivity.
Qed.

Lemma pipeline_ends_as_the_upload_does_witness :
  store_open Demo.started = true /\
  Demo.client _COMPANY _EMAIL "." = Ok tt /\
  Demo.working_download _COMPANY _EMAIL "." "10-K" (PyStr.upper "AAPL")
    None = Ok 1%Z /\
  loads_ok Demo.text_files [filings_dir "." "AAPL" "10-K"] = true /\
  parse_failures_are_exceptions Demo.text_files Demo.XBRLParser_parse
    [filings_dir "." "AAPL" "10-K"] = true /\
  exists w',
    pipeline Demo.client Demo.working_download Demo.text_files
      Demo.XBRLParser_parse Scenario.unreachable_index "AAPL" "10-K" "."
      Demo.started
    = (Scenario.unreachable_index
         (chunks_of Demo.text_files Demo.XBRLParser_parse
            (filings_dir "." "AAPL" "10-K"))
         (PyStr.lower ("AAPL" ++ "_" ++ "10-K")), w') /\
    log w'
    = (log Demo.started
         ++ pipeline_log Demo.text_files Demo.XBRLParser_parse
              Scenario.unreachable_index "AAPL" "10-K"
              (filings_dir "." "AAPL" "10-K"))%list.
Proof.
  repeat (split; [reflexivity|]).
  apply (pipeline_ends_as_the_upload_does Demo.client Demo.working_download
           Demo.text_files Demo.XBRLParser_parse Scenario.unreachable_index
           "AAPL" "10-K" "." 1%Z Demo.started); reflexivity.
Defined.

(** The same run against an index that accepts and one that refuses. *)
Example accepted_and_refused_upload :
  let run index := pipeline Demo.client Demo.working_download
                     Demo.text_files Demo.XBRLParser_parse index
                     "AAPL" "10-K" "." Demo.started in
  fst (run Demo.Qdrant_from_documents) = Ok tt /\
  map message (log (snd (run Demo.Qdrant_from_documents)))
  = ["Downloaded 10-K documents for AAPL";
     "Saved 10-K documents for AAPL";
     "Combined 10-K documents for AAPL";
     "Split texts for AAPL 10-K into 1 chunks";
     "Embedding and Saving 10-K documents for AAPL to Qdrant...";
     "Uploaded AAPL 10-K to Qdrant to aapl_10-k collection"] /\
  fst (run Scenario.unreachable_index)
  = Raise (Exc (OtherException "ConnectionError") "index unreachable" None)
  /\
  map message (log (snd (run Scenario.unreachable_index)))
  = ["Downloaded 10-K documents for AAPL";
     "Saved 10-K documents for AAPL";
     "Combined 10-K documents for AAPL";
     "Split texts for AAPL 10-K into 1 chunks";
     "Embedding and Saving 10-K documents for AAPL to Qdrant..."].
Proof. repeat split. Qed.

(** [main] from any state: the store is opened, and what the pipeline
    leaves in the table is what [main] leaves. *)
Lemma main_table
  (Downloader_new : string -> string -> string -> Result unit)
  (Downloader_get :
     string -> string -> string -> DocType -> TickerType -> option Z
     -> Result Z)
  (text_files : string -> Result (list (string * string)))
  (XBRLParser_parse : string -> Result Node)
  (Qdrant_from_documents : list Document -> string -> Result unit)
  args w0 :
  exists w1,
    init_store w0 = (Ok tt, w1) /\
    store_open w1 = true /\
    table (snd (main Downloader_new Downloader_get text_files XBRLParser_parse
                  Qdrant_from_documents args w0))
    = table (snd (pipeline Downloader_new Downloader_get text_files
                    XBRLParser_parse Qdrant_from_documents
                    (PyStr.upper (arg_ticker args))
                    (PyStr.upper (arg_doctype args)) (arg_save_dir args)
                    w1)) /\
    store_connection (snd (main Downloader_new Downloader_get text_files
                             XBRLParser_parse Qdrant_from_documents args
                             w0)) = None.
Proof.
  destruct (init_store_run w0) as [w1 [Hinit [Hopen _]]].
  exists w1. split; [exact Hinit|]. split; [exact Hopen|].
  destruct (store_open_inv w1 Hopen) as [c [rows [Hsc _]]].
  pose proof (keeps_pipeline Downloader_new Downloader_get text_files
                XBRLParser_parse Qdrant_from_documents
                (PyStr.upper (arg_ticker args))
                (PyStr.upper (arg_doctype args)) (arg_save_dir args) w1)
    as [Hsc2 _].
  rewrite Hsc in Hsc2.
  assert (Hmain :
    main Downloader_new Downloader_get text_files XBRLParser_parse
      Qdrant_from_documents args w0
    = try_finally
        (try_except
           (pipeline Downloader_new Downloader_get text_files XBRLParser_parse
              Qdrant_from_documents (PyStr.upper (arg_ticker args))
              (PyStr.upper (arg_doctype args)) (arg_save_dir args))
           [(is_KeyboardInterrupt, fun _ => py_exit 0);
            (is_Exception, fun e =>
               log_exception log_name
                 ("Problem executing the pipeline for "
                    ++ PyStr.upper (arg_ticker args) ++ " "
                    ++ PyStr.upper (arg_doctype args)) e)])
        (close_store_conn ;;; log_info log_name "Exit") w1).
  { unfold main, bind at 1. rewrite Hinit. reflexivity. }
  rewrite Hmain. clear Hmain.
  unfold try_finally, try_except.
  destruct (pipeline Downloader_new Downloader_get text_files XBRLParser_parse
              Qdrant_from_documents (PyStr.upper (arg_ticker args))
              (PyStr.upper (arg_doctype args)) (arg_save_dir args) w1)
    as [[[]|e] w2]; simpl in Hsc2; simpl fst; simpl snd.
  - destruct (teardown_closes c w2 Hsc2) as [w3 [Hrun [H1 [_ [H3 _]]]]].
    rewrite Hrun. simpl. split; assumption.
  - simpl dispatch. destruct (is_KeyboardInterrupt e).
    + unfold py_exit, raise.
      destruct (teardown_closes c w2 Hsc2) as [w3 [Hrun [H1 [_ [H3 _]]]]].
      rewrite Hrun. simpl. split; assumption.
    + destruct (is_Exception e).
      * unfold log_exception, emit.
        match goal with
        | |- context [(close_store_conn ;;; log_info log_name "Exit") ?w] =>
            destruct (teardown_closes c w Hsc2)
              as [w3 [Hrun [H1 [_ [H3 _]]]]]
        end.
        rewrite Hrun. simpl. split; assumption.
      * unfold raise.
        destruct (teardown_closes c w2 Hsc2)
          as [w3 [Hrun [H1 [_ [H3 _]]]]].
        rewrite Hrun. simpl. split; assumption.
Qed.

(** X20. Whatever state [main] starts in, once the retrieval has
    succeeded the database keeps exactly one record for the upper-cased
    ticker and document type, holding the directory of the filings, after
    the connection has been closed: also when a later stage failed or
    the run was interrupted. *)
Theorem main_leaves_the_record
  (Downloader_new : string -> string -> string -> Result unit)
  (Downloader_get :
     string -> string -> string -> DocType -> TickerType -> option Z
     -> Result Z)
  (text_files : string -> Result (list (string * string)))
  (XBRLParser_parse : string -> Result Node)
  (Qdrant_from_documents : list Document -> string -> Result unit)
  args n w0 :
  Downloader_new _COMPANY _EMAIL (arg_save_dir args) = Ok tt ->
  Downloader_get _COMPANY _EMAIL (arg_save_dir args)
    (PyStr.upper (arg_doctype args)) (PyStr.upper (arg_ticker args)) None
  = Ok n ->
  let final := snd (main Downloader_new Downloader_get text_files
                      XBRLParser_parse Qdrant_from_documents args w0) in
  store_connection final = None /\
  map row_dir_path
    (StoreSpec.records (PyStr.upper (arg_ticker args))
       (PyStr.upper (arg_doctype args)) final)
  = [arg_save_dir args ++ "/sec-edgar-filings/"
       ++ PyStr.upper (arg_ticker args) ++ "/"
       ++ PyStr.upper (arg_doctype args) ++ "/"].
Proof.
  intros Hnew Hget final.
  destruct (main_table Downloader_new Downloader_get text_files
              XBRLParser_parse Qdrant_from_documents args w0)
    as [w1 [Hinit [Hopen [Htable Hclosed]]]].
  split; [exact Hclosed|].
  unfold StoreSpec.records, final. rewrite Htable.
  rewrite <- (upper_idempotent (arg_ticker args)) in Hget.
  destruct (pipeline_after_download Downloader_new Downloader_get text_files
              XBRLParser_parse Qdrant_from_documents
              (PyStr.upper (arg_ticker args))
              (PyStr.upper (arg_doctype args)) (arg_save_dir args) n w1
              Hopen Hnew Hget) as [rows [Ht Hrun]].
  rewrite Hrun.
  match goal with
  | |- context [after_save _ _ _ _ _ ?w2] =>
      destruct (log_grows_after_save text_files XBRLParser_parse
                  Qdrant_from_documents (PyStr.upper (arg_ticker args))
                  (PyStr.upper (arg_doctype args)) w2) as [recs ->]
  end.
  cbn [table add_log snd set_table].
  rewrite filter_same_key_insert. unfold filings_dir. simpl map.
  rewrite upper_idempotent. reflexivity.
Qed.

Lemma main_leaves_the_record_witness :
  Demo.client _COMPANY _EMAIL (arg_save_dir Demo.aapl) = Ok tt /\
  Demo.working_download _COMPANY _EMAIL (arg_save_dir Demo.aapl)
    (PyStr.upper (arg_doctype Demo.aapl))
    (PyStr.upper (arg_ticker Demo.aapl)) None = Ok 1%Z /\
  let final := snd (main Demo.client Demo.working_download Demo.text_files
                      Demo.XBRLParser_parse Scenario.unreachable_index
                      Demo.aapl Demo.fresh) in
  store_connection final = None /\
  map row_dir_path
    (StoreSpec.records (PyStr.upper (arg_ticker Demo.aapl))
       (PyStr.upper (arg_doctype Demo.aapl)) final)
  = [arg_save_dir Demo.aapl ++ "/sec-edgar-filings/"
       ++ PyStr.upper (arg_ticker Demo.aapl) ++ "/"
       ++ PyStr.upper (arg_doctype Demo.aapl) ++ "/"].
Proof.
  split; [reflexivity|]. split; [reflexivity|].
  apply (main_leaves_the_record Demo.client Demo.working_download
           Demo.text_files Demo.XBRLParser_parse Scenario.unreachable_index
           Demo.aapl 1%Z Demo.fresh); reflexivity.
Defined.
